(** * I Love Steps: the walking-calories calculator of [app/routes/home.tsx]

    A shallow embedding of the calculator's arithmetic core: the input
    parser [toNumber], the constant tables [STRIDE_FACTORS] and [PACE], the
    engine [useWalkingCalc], and the component state of
    [CaloriesCalculator] with its derived step count [calcSteps] and its
    [resetAll] handler.

    JavaScript numbers are IEEE 754 binary64 values.  The engine is written
    once, over an interface [JsNumber] holding exactly the operators the
    source applies to numbers, and run on two carriers:
    - [float], Rocq's primitive binary64 numbers: the program as the browser
      evaluates it, with its NaN, infinities and signed zeros;
    - [Q], exact rationals: the same expressions without rounding, used for
      the algebraic laws that hold of the formulae up to rounding. *)

From Stdlib Require Import ZArith QArith Qround Floats String Ascii Bool List Lqa.
From Stdlib Require Import Lia.
Import ListNotations.

(** ** Enumerations of the source ([SexKey], [PaceKey] and the string-literal
    unions of the props) *)

Inductive WeightUnit := kg | lb.
Inductive HeightUnit := cm | inch.
Inductive SexKey := female | male.
Inductive PaceKey := easy | brisk | power | jog.
Inductive InputMode := ModeSteps | ModeDistance | ModeTime.

(** ** Numbers *)

(** The operators the calculator uses on numbers: decimal literals, [*],
    [/], [>], truthiness (for [||]) and [Math.round]. *)
Class JsNumber (num : Type) : Type := {
  lit : Q -> num;
  num_mul : num -> num -> num;
  num_div : num -> num -> num;
  num_gtb : num -> num -> bool;
  truthy : num -> bool;
  Math_round : num -> num
}.

Arguments lit {num _} q%_Q.

Declare Scope js_scope.
Delimit Scope js_scope with js.
Notation "x * y" := (num_mul x y) : js_scope.
Notation "x / y" := (num_div x y) : js_scope.
Notation "x >? y" := (num_gtb x y) (at level 70, no associativity) : js_scope.

(** [a || b] on numbers: [a] when it is truthy, otherwise [b]. *)
Definition js_or {num} `{JsNumber num} (a b : num) : num :=
  if truthy a then a else b.

Notation "x || y" := (js_or x y) : js_scope.

(** *** binary64 *)

Module F64.

(** The binary64 value nearest to an integer (ties to even). *)
Definition of_Z (z : Z) : float :=
  SF2Prim (binary_normalize prec emax z 0 false).

(** A decimal literal [n/d]: both parts of the source's literals are
    integers below 2^53, so the correctly rounded quotient is the
    binary64 value nearest to the literal. *)
Definition of_Q (q : Q) : float :=
  PrimFloat.div (of_Z (Qnum q)) (of_Z (Zpos (Qden q))).

(** ToBoolean on a Number: false exactly for +0, -0 and NaN. *)
Definition to_boolean (x : float) : bool :=
  negb (PrimFloat.is_zero x || PrimFloat.is_nan x).

(** [Math.round]: the integer nearest to [x], ties towards +infinity;
    NaN, the infinities, the zeros and integral values are returned as
    they are, and a negative argument that rounds to zero gives -0. *)
Definition round (x : float) : float :=
  match Prim2SF x with
  | S754_finite s m e =>
      if (0 <=? e)%Z then x
      else
        let k := (- e)%Z in
        let n := Z.shiftr (2 * cond_Zopp s (Zpos m) + 2 ^ k) (k + 1) in
        if (n =? 0)%Z
        then (if s then PrimFloat.neg_zero else PrimFloat.zero)
        else of_Z n
  | _ => x
  end.

(** The binary64 value nearest to [(-1)^neg * m * 10^e], for [0 <= m]. *)
Definition of_decimal (neg : bool) (m e : Z) : float :=
  match m with
  | Z0 => if neg then PrimFloat.neg_zero else PrimFloat.zero
  | _ =>
      if (0 <=? e)%Z
      then SF2Prim (binary_normalize prec emax (cond_Zopp neg m * 10 ^ e) 0 false)
      else SF2Prim (SFdiv prec emax
                      (S754_finite neg (Z.to_pos m) 0)
                      (S754_finite false (Z.to_pos (10 ^ (- e))) 0))
  end.

(** Numeric agreement of two results: the same value, where +0 and -0
    count as the same number. *)
Definition same (x y : float) : Prop :=
  x = y \/ PrimFloat.eqb x y = true.

(** Not below zero: a positive number, a zero of either sign, or NaN. *)
Definition not_negative (x : float) : bool :=
  negb (PrimFloat.ltb x PrimFloat.zero).

(** The same on the specification's view of a binary64 value, and the
    values above zero. *)
Definition sf_not_negative (x : spec_float) : Prop :=
  match x with
  | S754_infinity s | S754_finite s _ _ => s = false
  | _ => True
  end.
Definition sf_positive (x : spec_float) : Prop :=
  match x with
  | S754_infinity s | S754_finite s _ _ => s = false
  | _ => False
  end.

(** [|x - v| <= tol]. *)
Definition within (tol v x : float) : bool :=
  PrimFloat.leb (PrimFloat.abs (PrimFloat.sub x v)) tol.

End F64.

#[export] Instance float_number : JsNumber float := {
  lit := F64.of_Q;
  num_mul := PrimFloat.mul;
  num_div := PrimFloat.div;
  num_gtb := fun a b => PrimFloat.ltb b a;
  truthy := F64.to_boolean;
  Math_round := F64.round
}.

(** *** exact rationals *)

#[export] Instance exact_number : JsNumber Q := {
  lit := fun q => q;
  num_mul := Qmult;
  num_div := Qdiv;
  num_gtb := fun a b => negb (Qle_bool a b);
  truthy := fun a => negb (Qeq_bool a 0);
  Math_round := fun a => inject_Z (Qfloor (Qplus a (1 # 2)))
}.

(** ** The input boundary: [toNumber] *)

(** Strings are sequences of code units below 256. *)

(** [v.replace(pat, rep)] for a one-character pattern: only the first
    occurrence is replaced. *)
Fixpoint replace (pat rep : ascii) (v : string) : string :=
  match v with
  | EmptyString => EmptyString
  | String c r =>
      if Ascii.eqb c pat then String rep r else String c (replace pat rep r)
  end.

Module Parse.

(** WhiteSpace and LineTerminator code units: TAB, LF, VT, FF, CR, SP and
    NBSP. *)
Definition is_white (c : ascii) : bool :=
  let n := nat_of_ascii c in
  ((9 <=? n) && (n <=? 13) || (n =? 32) || (n =? 160))%nat.

(** TrimString(_, start). *)
Fixpoint trim_start (v : string) : string :=
  match v with
  | String c r => if is_white c then trim_start r else v
  | EmptyString => v
  end.

Definition digit_of (c : ascii) : option Z :=
  let n := Z.of_nat (nat_of_ascii c) in
  if ((48 <=? n) && (n <=? 57))%Z then Some (n - 48)%Z else None.

(** The longest run of DecimalDigits at the head of [v], accumulated on
    [acc]: the value, the number of digits read so far, and the rest. *)
Fixpoint digits (v : string) (acc cnt : Z) : Z * Z * string :=
  match v with
  | String c r =>
      match digit_of c with
      | Some d => digits r (10 * acc + d)%Z (cnt + 1)%Z
      | None => (acc, cnt, v)
      end
  | EmptyString => (acc, cnt, v)
  end.

(** The value of an ExponentPart at the head of [v]; 0 when there is
    none (an [e] that no digit follows is not part of the literal). *)
Definition exponent (v : string) : Z :=
  match v with
  | String c r =>
      if Ascii.eqb c "e" || Ascii.eqb c "E" then
        let '(sgn, r') :=
          match r with
          | String "+" r1 => (1%Z, r1)
          | String "-" r1 => ((-1)%Z, r1)
          | _ => (1%Z, r)
          end in
        let '(x, cnt, _) := digits r' 0 0 in
        if (cnt =? 0)%Z then 0%Z else (sgn * x)%Z
      else 0%Z
  | EmptyString => 0%Z
  end.

(** The longest prefix that is a StrUnsignedDecimalLiteral, as a number;
    NaN when there is none. *)
Definition unsigned_literal (neg : bool) (v : string) : float :=
  if String.prefix "Infinity" v
  then (if neg then PrimFloat.neg_infinity else PrimFloat.infinity)
  else
    let '(ip, ic, r1) := digits v 0 0 in
    match r1 with
    | String "." r2 =>
        let '(m, tc, r3) := digits r2 ip ic in
        if (tc =? 0)%Z then PrimFloat.nan
        else F64.of_decimal neg m (exponent r3 - (tc - ic))
    | _ =>
        if (ic =? 0)%Z then PrimFloat.nan
        else F64.of_decimal neg ip (exponent r1)
    end.

End Parse.

(** The global [parseFloat]. *)
Definition parseFloat (v : string) : float :=
  match Parse.trim_start v with
  | String "+" r => Parse.unsigned_literal false r
  | String "-" r => Parse.unsigned_literal true r
  | t => Parse.unsigned_literal false t
  end.

(** [Number.isFinite]. *)
Definition Number_isFinite (n : float) : bool := PrimFloat.is_finite n.

Definition toNumber (v : string) : float :=
  let n := parseFloat (replace "," "." v) in
  if Number_isFinite n then n else PrimFloat.zero.

(** ** Constant tables *)

(** A row of the pace table. *)
Module Pace.
Record Row (num : Type) := { mph : num; mets : num; label : string }.
Arguments mph {num} _.
Arguments mets {num} _.
Arguments label {num} _.
End Pace.

Section Tables.
Context {num : Type} `{JsNumber num}.

Definition STRIDE_FACTORS (k : SexKey) : num :=
  match k with
  | female => lit 0.413
  | male => lit 0.415
  end.

Definition PACE (k : PaceKey) : Pace.Row num :=
  match k with
  | easy =>
      {| Pace.mph := lit 2.5; Pace.mets := lit 3.0;
         Pace.label := "Easy Walk (~2.5 mph / 4 kph)" |}
  | brisk =>
      {| Pace.mph := lit 3.5; Pace.mets := lit 4.3;
         Pace.label := "Brisk Walk (~3.5 mph / 5.6 kph)" |}
  | power =>
      {| Pace.mph := lit 4.3; Pace.mets := lit 5.0;
         Pace.label := "Power Walk (~4.3 mph / 6.9 kph)" |}
  | jog =>
      {| Pace.mph := lit 5.0; Pace.mets := lit 7.0;
         Pace.label := "Light Jog (~5 mph / 8 kph)" |}
  end.
End Tables.

(** ** The engine: [useWalkingCalc] *)

Module Engine.
Section WithNumber.
Context {num : Type} `{JsNumber num}.
Local Open Scope js_scope.

(** The props object. *)
Record Args := {
  weight : num;
  weightUnit : WeightUnit;
  height : num;
  heightUnit : HeightUnit;
  steps : num;
  sex : SexKey;
  pace : PaceKey;
  customStrideCm : num;
  useCustomStride : bool
}.

(** The returned object. *)
Record Metrics := {
  strideAuto : num;
  strideCm : num;
  distanceKm : num;
  distanceMi : num;
  minutes : num;
  hours : num;
  calories : num;
  cadence : num;
  mph : num
}.

Definition weightKg (a : Args) : num :=
  match weightUnit a with
  | kg => weight a
  | _ => weight a * lit 0.45359237
  end.

Definition heightCm (a : Args) : num :=
  match heightUnit a with
  | cm => height a
  | _ => height a * lit 2.54
  end.

(** The body of the memoised callback, for a pace table [tbl].  The
    dependency list of the source's [useMemo] names every variable the
    body reads, so the memoised value is this function of the current
    props. *)
Definition walkingCalc (tbl : PaceKey -> Pace.Row num) (a : Args) : Metrics :=
  let weightKg := weightKg a in
  let heightCm := heightCm a in
  let strideAuto := heightCm * STRIDE_FACTORS (sex a) in
  let strideCm :=
    if useCustomStride a then customStrideCm a || strideAuto else strideAuto in
  let distanceKm := ((steps a || lit 0) * (strideCm / lit 100)) / lit 1000 in
  let distanceMi := distanceKm * lit 0.621371 in
  let mph := Pace.mph (tbl (pace a)) in
  let mets := Pace.mets (tbl (pace a)) in
  let hours := if mph >? lit 0 then distanceMi / mph else lit 0 in
  let minutes := hours * lit 60 in
  let calories := mets * lit 3.5 * weightKg * (minutes / lit 200) in
  let cadence := if minutes >? lit 0 then steps a / minutes else lit 0 in
  {| strideAuto := strideAuto;
     strideCm := strideCm;
     distanceKm := distanceKm;
     distanceMi := distanceMi;
     minutes := minutes;
     hours := hours;
     calories := calories;
     cadence := cadence;
     mph := mph |}.

Definition useWalkingCalc (a : Args) : Metrics := walkingCalc PACE a.

(** Props that differ from [a] in one field only. *)
Definition with_weight (v : num) (a : Args) : Args :=
  {| weight := v; weightUnit := weightUnit a; height := height a;
     heightUnit := heightUnit a; steps := steps a; sex := sex a;
     pace := pace a; customStrideCm := customStrideCm a;
     useCustomStride := useCustomStride a |}.
Definition with_steps (v : num) (a : Args) : Args :=
  {| weight := weight a; weightUnit := weightUnit a; height := height a;
     heightUnit := heightUnit a; steps := v; sex := sex a;
     pace := pace a; customStrideCm := customStrideCm a;
     useCustomStride := useCustomStride a |}.

(** The outputs as a list. *)
Definition outputs (r : Metrics) : list num :=
  [strideAuto r; strideCm r; distanceKm r; distanceMi r; minutes r;
   hours r; calories r; cadence r; mph r].

End WithNumber.
Arguments Args num : clear implicits.
Arguments Metrics num : clear implicits.
End Engine.

(** ** The component: [CaloriesCalculator] *)

Module CaloriesCalculator.
Section WithNumber.
Context {num : Type} `{JsNumber num}.
Local Open Scope js_scope.

(** The twelve [useState] cells. *)
Record State := {
  inputMode : InputMode;
  weight : num;
  weightUnit : WeightUnit;
  height : num;
  heightUnit : HeightUnit;
  steps : num;
  distanceKm : num;
  timeMin : num;
  pace : PaceKey;
  sex : SexKey;
  useCustomStride : bool;
  customStrideCm : num
}.

(** The initial values given to [useState]. *)
Definition initial : State :=
  {| inputMode := ModeSteps;
     weight := lit 70;
     weightUnit := kg;
     height := lit 170;
     heightUnit := cm;
     steps := lit 5000;
     distanceKm := lit 4;
     timeMin := lit 40;
     pace := brisk;
     sex := male;
     useCustomStride := false;
     customStrideCm := lit 0 |}.

(** The setters: each replaces one cell. *)
Definition setInputMode (v : InputMode) (s : State) : State :=
  {| inputMode := v; weight := weight s; weightUnit := weightUnit s;
     height := height s; heightUnit := heightUnit s; steps := steps s;
     distanceKm := distanceKm s; timeMin := timeMin s; pace := pace s;
     sex := sex s; useCustomStride := useCustomStride s;
     customStrideCm := customStrideCm s |}.
Definition setWeight (v : num) (s : State) : State :=
  {| inputMode := inputMode s; weight := v; weightUnit := weightUnit s;
     height := height s; heightUnit := heightUnit s; steps := steps s;
     distanceKm := distanceKm s; timeMin := timeMin s; pace := pace s;
     sex := sex s; useCustomStride := useCustomStride s;
     customStrideCm := customStrideCm s |}.
Definition setWeightUnit (v : WeightUnit) (s : State) : State :=
  {| inputMode := inputMode s; weight := weight s; weightUnit := v;
     height := height s; heightUnit := heightUnit s; steps := steps s;
     distanceKm := distanceKm s; timeMin := timeMin s; pace := pace s;
     sex := sex s; useCustomStride := useCustomStride s;
     customStrideCm := customStrideCm s |}.
Definition setHeight (v : num) (s : State) : State :=
  {| inputMode := inputMode s; weight := weight s; weightUnit := weightUnit s;
     height := v; heightUnit := heightUnit s; steps := steps s;
     distanceKm := distanceKm s; timeMin := timeMin s; pace := pace s;
     sex := sex s; useCustomStride := useCustomStride s;
     customStrideCm := customStrideCm s |}.
Definition setHeightUnit (v : HeightUnit) (s : State) : State :=
  {| inputMode := inputMode s; weight := weight s; weightUnit := weightUnit s;
     height := height s; heightUnit := v; steps := steps s;
     distanceKm := distanceKm s; timeMin := timeMin s; pace := pace s;
     sex := sex s; useCustomStride := useCustomStride s;
     customStrideCm := customStrideCm s |}.
Definition setSteps (v : num) (s : State) : State :=
  {| inputMode := inputMode s; weight := weight s; weightUnit := weightUnit s;
     height := height s; heightUnit := heightUnit s; steps := v;
     distanceKm := distanceKm s; timeMin := timeMin s; pace := pace s;
     sex := sex s; useCustomStride := useCustomStride s;
     customStrideCm := customStrideCm s |}.
Definition setDistanceKm (v : num) (s : State) : State :=
  {| inputMode := inputMode s; weight := weight s; weightUnit := weightUnit s;
     height := height s; heightUnit := heightUnit s; steps := steps s;
     distanceKm := v; timeMin := timeMin s; pace := pace s;
     sex := sex s; useCustomStride := useCustomStride s;
     customStrideCm := customStrideCm s |}.
Definition setTimeMin (v : num) (s : State) : State :=
  {| inputMode := inputMode s; weight := weight s; weightUnit := weightUnit s;
     height := height s; heightUnit := heightUnit s; steps := steps s;
     distanceKm := distanceKm s; timeMin := v; pace := pace s;
     sex := sex s; useCustomStride := useCustomStride s;
     customStrideCm := customStrideCm s |}.
Definition setPace (v : PaceKey) (s : State) : State :=
  {| inputMode := inputMode s; weight := weight s; weightUnit := weightUnit s;
     height := height s; heightUnit := heightUnit s; steps := steps s;
     distanceKm := distanceKm s; timeMin := timeMin s; pace := v;
     sex := sex s; useCustomStride := useCustomStride s;
     customStrideCm := customStrideCm s |}.
Definition setSex (v : SexKey) (s : State) : State :=
  {| inputMode := inputMode s; weight := weight s; weightUnit := weightUnit s;
     height := height s; heightUnit := heightUnit s; steps := steps s;
     distanceKm := distanceKm s; timeMin := timeMin s; pace := pace s;
     sex := v; useCustomStride := useCustomStride s;
     customStrideCm := customStrideCm s |}.
Definition setUseCustomStride (v : bool) (s : State) : State :=
  {| inputMode := inputMode s; weight := weight s; weightUnit := weightUnit s;
     height := height s; heightUnit := heightUnit s; steps := steps s;
     distanceKm := distanceKm s; timeMin := timeMin s; pace := pace s;
     sex := sex s; useCustomStride := v;
     customStrideCm := customStrideCm s |}.
Definition setCustomStrideCm (v : num) (s : State) : State :=
  {| inputMode := inputMode s; weight := weight s; weightUnit := weightUnit s;
     height := height s; heightUnit := heightUnit s; steps := steps s;
     distanceKm := distanceKm s; timeMin := timeMin s; pace := pace s;
     sex := sex s; useCustomStride := useCustomStride s;
     customStrideCm := v |}.

(** The distance walked, for the modes that derive the step count. *)
Definition km (s : State) : num :=
  match inputMode s with
  | ModeDistance => distanceKm s
  | _ => Pace.mph (PACE (pace s)) * lit 1.60934 * (timeMin s / lit 60)
  end.

(** The stride [calcSteps] divides by. *)
Definition calcStride (s : State) : num :=
  if useCustomStride s
  then customStrideCm s || height s * STRIDE_FACTORS (sex s)
  else height s * STRIDE_FACTORS (sex s).

(** [calcSteps]: the effective step count.  Its dependency list names
    every cell the body reads. *)
Definition calcSteps (s : State) : num :=
  match inputMode s with
  | ModeSteps => steps s
  | _ => Math_round ((km s * lit 1000) / (calcStride s / lit 100))
  end.

(** The props handed to the engine. *)
Definition props (s : State) : Engine.Args num :=
  {| Engine.weight := weight s;
     Engine.weightUnit := weightUnit s;
     Engine.height := height s;
     Engine.heightUnit := heightUnit s;
     Engine.steps := calcSteps s;
     Engine.sex := sex s;
     Engine.pace := pace s;
     Engine.customStrideCm := customStrideCm s;
     Engine.useCustomStride := useCustomStride s |}.

(** [r]: the metrics the component renders. *)
Definition r (s : State) : Engine.Metrics num :=
  Engine.useWalkingCalc (props s).

(** The Reset button's handler: six setter calls. *)
Definition resetAll (s : State) : State :=
  setUseCustomStride false
    (setInputMode ModeSteps
       (setTimeMin (lit 40)
          (setDistanceKm (lit 4)
             (setSteps (lit 5000)
                (setWeight (lit 70) s))))).

End WithNumber.
Arguments State num : clear implicits.
End CaloriesCalculator.

(** A [NumberInput]'s change handler: the typed text goes through
    [toNumber] into the cell's setter. *)
Definition NumberInput_onChange
    (onChange : float -> CaloriesCalculator.State float -> CaloriesCalculator.State float)
    (text : string) (s : CaloriesCalculator.State float) : CaloriesCalculator.State float :=
  onChange (toNumber text) s.

(** ** The formulae of the specification *)

(** The effective step count as the specification words it: the stride is
    the custom stride when it is in use and positive, and otherwise the
    height in centimetres (inches converted) times the stride factor. *)
Module Spec.
Section WithNumber.
Context {num : Type} `{JsNumber num}.
Local Open Scope js_scope.
Import CaloriesCalculator.

Definition height_cm (s : State num) : num :=
  match heightUnit s with
  | cm => height s
  | inch => height s * lit 2.54
  end.

Definition effectiveStride (s : State num) : num :=
  if (useCustomStride s && (customStrideCm s >? lit 0))%bool
  then customStrideCm s
  else height_cm s * STRIDE_FACTORS (sex s).

Definition km (s : State num) : num :=
  match inputMode s with
  | ModeDistance => distanceKm s
  | _ => Pace.mph (PACE (pace s)) * lit 1.60934 * (timeMin s / lit 60)
  end.

Definition effectiveSteps (s : State num) : num :=
  Math_round (km s * lit 1000 / (effectiveStride s / lit 100)).

End WithNumber.
End Spec.

(** ** Concrete inputs *)

Module Scenario.
Import CaloriesCalculator.

(** weight 70 kg, height 170 cm, 5000 steps, male, brisk, no custom
    stride: the props of the initial render. *)
Definition brisk_5000 : Engine.Args float :=
  {| Engine.weight := lit 70;
     Engine.weightUnit := kg;
     Engine.height := lit 170;
     Engine.heightUnit := cm;
     Engine.steps := lit 5000;
     Engine.sex := male;
     Engine.pace := brisk;
     Engine.customStrideCm := lit 0;
     Engine.useCustomStride := false |}.

(** Height typed in inches (67 in), distance mode with the initial 4 km. *)
Definition inches_4km : State float :=
  setInputMode ModeDistance (setHeightUnit inch (setHeight (lit 67) initial)).

(** The same walker with the height given in centimetres
    (67 in = 170.18 cm). *)
Definition cm_4km : State float :=
  setInputMode ModeDistance (setHeight (lit 170.18) initial).

(** Custom stride switched on and left at zero. *)
Definition custom_zero : Engine.Args float :=
  {| Engine.weight := lit 70;
     Engine.weightUnit := kg;
     Engine.height := lit 170;
     Engine.heightUnit := cm;
     Engine.steps := lit 5000;
     Engine.sex := male;
     Engine.pace := brisk;
     Engine.customStrideCm := PrimFloat.zero;
     Engine.useCustomStride := true |}.

(** Weight 0 and 0 steps, the other props free. *)
Definition all_zero (wu : WeightUnit) (hu : HeightUnit) (sx : SexKey)
    (pc : PaceKey) (custom : bool) : Engine.Args float :=
  {| Engine.weight := lit 0;
     Engine.weightUnit := wu;
     Engine.height := lit 170;
     Engine.heightUnit := hu;
     Engine.steps := lit 0;
     Engine.sex := sx;
     Engine.pace := pc;
     Engine.customStrideCm := lit 0;
     Engine.useCustomStride := custom |}.

(** The props of the first render, on the exact carrier. *)
Definition brisk_5000_exact : Engine.Args Q := props initial.

(** The pace table with a higher MET value on the [brisk] row. *)
Definition harder {num} `{JsNumber num} (k : PaceKey) : Pace.Row num :=
  match k with
  | brisk => {| Pace.mph := lit 3.5; Pace.mets := lit 5.0; Pace.label := "harder" |}
  | _ => PACE k
  end.

(** A pace table whose [brisk] row has speed 0. *)
Definition stalled {num} `{JsNumber num} (k : PaceKey) : Pace.Row num :=
  match k with
  | brisk => {| Pace.mph := lit 0; Pace.mets := lit 4.3; Pace.label := "stalled" |}
  | _ => PACE k
  end.

End Scenario.

(** ** [Math.max], [Math.min] and [clamp] *)

(** The two-argument [Math.max] and [Math.min]. *)
Class JsMinMax (num : Type) : Type := {
  Math_max : num -> num -> num;
  Math_min : num -> num -> num
}.

Module F64Order.

(** [Math.max] on binary64: NaN when an argument is NaN; the larger
    argument; of two zeros, +0 unless both are -0. *)
Definition max (a b : float) : float :=
  if PrimFloat.is_nan a || PrimFloat.is_nan b then PrimFloat.nan
  else if PrimFloat.ltb b a then a
  else if PrimFloat.ltb a b then b
  else if PrimFloat.is_zero a && PrimFloat.get_sign a then b
  else a.

(** [Math.min] on binary64: NaN when an argument is NaN; the smaller
    argument; of two zeros, -0 unless both are +0. *)
Definition min (a b : float) : float :=
  if PrimFloat.is_nan a || PrimFloat.is_nan b then PrimFloat.nan
  else if PrimFloat.ltb a b then a
  else if PrimFloat.ltb b a then b
  else if PrimFloat.is_zero a && negb (PrimFloat.get_sign a) then b
  else a.

End F64Order.

#[export] Instance float_minmax : JsMinMax float := {
  Math_max := F64Order.max;
  Math_min := F64Order.min
}.

#[export] Instance exact_minmax : JsMinMax Q := {
  Math_max := fun a b => if Qle_bool a b then b else a;
  Math_min := fun a b => if Qle_bool a b then a else b
}.

Definition clamp {num : Type} `{JsMinMax num} (n min max : num) : num :=
  Math_min (Math_max n min) max.

(** ** The results panel *)

Module ResultsPanel.
Section WithNumber.
Context {num : Type} `{JsNumber num} `{JsMinMax num}.

(** The number behind the large calories figure:
    [Math.max(0, r.calories)]. *)
Definition caloriesShown (s : CaloriesCalculator.State num) : num :=
  Math_max (lit 0) (Engine.calories (CaloriesCalculator.r s)).

End WithNumber.
End ResultsPanel.

(** ** [useMemo] *)

(** React keeps, per [useMemo] call, the dependency list and the value of
    the last computation; a render returns the kept value when every
    dependency is the same as then ([Object.is]), and otherwise computes
    and keeps a new one. *)
Module Hooks.

Record Memo (D A : Type) := { memo_deps : D; memo_value : A }.
Arguments memo_deps {D A} _.
Arguments memo_value {D A} _.

Definition useMemo {D A : Type} (same : D -> D -> bool)
    (cell : option (Memo D A)) (calculate : unit -> A) (deps : D)
  : A * option (Memo D A) :=
  match cell with
  | Some m =>
      if same (memo_deps m) deps then (memo_value m, cell)
      else
        let v := calculate tt in
        (v, Some {| memo_deps := deps; memo_value := v |})
  | None =>
      let v := calculate tt in
      (v, Some {| memo_deps := deps; memo_value := v |})
  end.

(** [Object.is] on binary64: the same value, where NaN is itself and +0
    is not -0. *)
Definition Object_is (a b : float) : bool := PrimFloat.Leibniz.eqb a b.

Definition InputMode_is (a b : InputMode) : bool :=
  match a, b with
  | ModeSteps, ModeSteps | ModeDistance, ModeDistance | ModeTime, ModeTime => true
  | _, _ => false
  end.
Definition PaceKey_is (a b : PaceKey) : bool :=
  match a, b with
  | easy, easy | brisk, brisk | power, power | jog, jog => true
  | _, _ => false
  end.
Definition SexKey_is (a b : SexKey) : bool :=
  match a, b with
  | female, female | male, male => true
  | _, _ => false
  end.
Definition WeightUnit_is (a b : WeightUnit) : bool :=
  match a, b with
  | kg, kg | lb, lb => true
  | _, _ => false
  end.
Definition HeightUnit_is (a b : HeightUnit) : bool :=
  match a, b with
  | cm, cm | inch, inch => true
  | _, _ => false
  end.

(** The dependency list of [calcSteps]:
    [inputMode, steps, distanceKm, timeMin, pace, height, sex,
     useCustomStride, customStrideCm]. *)
Record StepsDeps := {
  d_inputMode : InputMode;
  d_steps : float;
  d_distanceKm : float;
  d_timeMin : float;
  d_pace : PaceKey;
  d_height : float;
  d_sex : SexKey;
  d_useCustomStride : bool;
  d_customStrideCm : float
}.

Definition stepsDeps (s : CaloriesCalculator.State float) : StepsDeps :=
  {| d_inputMode := CaloriesCalculator.inputMode s;
     d_steps := CaloriesCalculator.steps s;
     d_distanceKm := CaloriesCalculator.distanceKm s;
     d_timeMin := CaloriesCalculator.timeMin s;
     d_pace := CaloriesCalculator.pace s;
     d_height := CaloriesCalculator.height s;
     d_sex := CaloriesCalculator.sex s;
     d_useCustomStride := CaloriesCalculator.useCustomStride s;
     d_customStrideCm := CaloriesCalculator.customStrideCm s |}.

Definition sameStepsDeps (a b : StepsDeps) : bool :=
  InputMode_is (d_inputMode a) (d_inputMode b)
  && Object_is (d_steps a) (d_steps b)
  && Object_is (d_distanceKm a) (d_distanceKm b)
  && Object_is (d_timeMin a) (d_timeMin b)
  && PaceKey_is (d_pace a) (d_pace b)
  && Object_is (d_height a) (d_height b)
  && SexKey_is (d_sex a) (d_sex b)
  && Bool.eqb (d_useCustomStride a) (d_useCustomStride b)
  && Object_is (d_customStrideCm a) (d_customStrideCm b).

(** The dependency list of the engine's memo:
    [weight, weightUnit, height, heightUnit, steps, sex, pace,
     customStrideCm, useCustomStride], that is, every prop. *)
Definition sameArgs (a b : Engine.Args float) : bool :=
  Object_is (Engine.weight a) (Engine.weight b)
  && WeightUnit_is (Engine.weightUnit a) (Engine.weightUnit b)
  && Object_is (Engine.height a) (Engine.height b)
  && HeightUnit_is (Engine.heightUnit a) (Engine.heightUnit b)
  && Object_is (Engine.steps a) (Engine.steps b)
  && SexKey_is (Engine.sex a) (Engine.sex b)
  && PaceKey_is (Engine.pace a) (Engine.pace b)
  && Object_is (Engine.customStrideCm a) (Engine.customStrideCm b)
  && Bool.eqb (Engine.useCustomStride a) (Engine.useCustomStride b).

(** The two memo cells of a mounted [CaloriesCalculator]. *)
Record Cells := {
  stepsCell : option (Memo StepsDeps float);
  calcCell : option (Memo (Engine.Args float) (Engine.Metrics float))
}.

Definition mounted : Cells := {| stepsCell := None; calcCell := None |}.

(** One render: [calcSteps] through its memo, then [useWalkingCalc]
    through the engine's memo, with the step count just obtained among
    the props. *)
Definition render (s : CaloriesCalculator.State float) (c : Cells)
  : Engine.Metrics float * Cells :=
  let '(calcSteps, cell1) :=
    useMemo sameStepsDeps (stepsCell c)
      (fun _ => CaloriesCalculator.calcSteps s) (stepsDeps s) in
  let args :=
    {| Engine.weight := CaloriesCalculator.weight s;
       Engine.weightUnit := CaloriesCalculator.weightUnit s;
       Engine.height := CaloriesCalculator.height s;
       Engine.heightUnit := CaloriesCalculator.heightUnit s;
       Engine.steps := calcSteps;
       Engine.sex := CaloriesCalculator.sex s;
       Engine.pace := CaloriesCalculator.pace s;
       Engine.customStrideCm := CaloriesCalculator.customStrideCm s;
       Engine.useCustomStride := CaloriesCalculator.useCustomStride s |} in
  let '(r, cell2) :=
    useMemo sameArgs (calcCell c)
      (fun _ => Engine.walkingCalc PACE args) args in
  (r, {| stepsCell := cell1; calcCell := cell2 |}).

(** The metrics shown after the component has gone through the states
    [ss] one render after the other, ending with a render of [s]. *)
Fixpoint renders (ss : list (CaloriesCalculator.State float)) (c : Cells) : Cells :=
  match ss with
  | [] => c
  | s :: rest => renders rest (snd (render s c))
  end.

(** A kept value is the value of its kept dependencies. *)
Definition coherent (c : Cells) : Prop :=
  (forall m, stepsCell c = Some m ->
             exists s0, memo_deps m = stepsDeps s0
                        /\ memo_value m = CaloriesCalculator.calcSteps s0)
  /\ (forall m, calcCell c = Some m ->
                memo_value m = Engine.walkingCalc PACE (memo_deps m)).

End Hooks.

(** ** The controls *)

(** What the user can do to a mounted calculator. *)
Inductive Event :=
| ClickMode (m : InputMode)
| TypeWeight (text : string)
| SelectWeightUnit (u : WeightUnit)
| TypeHeight (text : string)
| SelectHeightUnit (u : HeightUnit)
| TypeSteps (text : string)
| TypeDistanceKm (text : string)
| TypeTimeMin (text : string)
| SelectPace (p : PaceKey)
| ClickSex (x : SexKey)
| CheckCustomStride (checked : bool)
| TypeCustomStrideCm (text : string)
| ClickReset.

Module Controls.
Import CaloriesCalculator.

(** The controls the render puts on the page: the steps, distance and
    time fields each in their own mode, the stride field under the
    checked box, everything else always. *)
Definition rendered (e : Event) (s : State float) : bool :=
  match e with
  | TypeSteps _ => match inputMode s with ModeSteps => true | _ => false end
  | TypeDistanceKm _ => match inputMode s with ModeDistance => true | _ => false end
  | TypeTimeMin _ => match inputMode s with ModeTime => true | _ => false end
  | TypeCustomStrideCm _ => useCustomStride s
  | _ => true
  end.

(** The handler of each control. *)
Definition handler (e : Event) (s : State float) : State float :=
  match e with
  | ClickMode m => setInputMode m s
  | TypeWeight t => NumberInput_onChange setWeight t s
  | SelectWeightUnit u => setWeightUnit u s
  | TypeHeight t => NumberInput_onChange setHeight t s
  | SelectHeightUnit u => setHeightUnit u s
  | TypeSteps t => NumberInput_onChange setSteps t s
  | TypeDistanceKm t => NumberInput_onChange setDistanceKm t s
  | TypeTimeMin t => NumberInput_onChange setTimeMin t s
  | SelectPace p => setPace p s
  | ClickSex x => setSex x s
  | CheckCustomStride b => setUseCustomStride b s
  | TypeCustomStrideCm t => NumberInput_onChange setCustomStrideCm t s
  | ClickReset => resetAll s
  end.

(** An event on a control that is on the page; [None] for a control that
    is not. *)
Definition dispatch (e : Event) (s : State float) : option (State float) :=
  if rendered e s then Some (handler e s) else None.

Fixpoint run (es : list Event) (s : State float) : option (State float) :=
  match es with
  | [] => Some s
  | e :: rest =>
      match dispatch e s with
      | Some s' => run rest s'
      | None => None
      end
  end.

(** The six numeric cells. *)
Definition numericCells (s : State float) : list float :=
  [weight s; height s; steps s; distanceKm s; timeMin s; customStrideCm s].

End Controls.

(** ** Numerals *)

Module Numeral.

(** The character of a decimal digit, and the text and the value of a
    digit sequence. *)
Definition digit_char (d : nat) : ascii := ascii_of_nat (48 + d).

Fixpoint text (ds : list nat) : string :=
  match ds with
  | [] => EmptyString
  | d :: rest => String (digit_char d) (text rest)
  end.

Fixpoint value_from (acc : Z) (ds : list nat) : Z :=
  match ds with
  | [] => acc
  | d :: rest => value_from (10 * acc + Z.of_nat d) rest
  end.

Definition value (ds : list nat) : Z := value_from 0 ds.

Definition all_digits (ds : list nat) : bool := forallb (fun d => d <? 10)%nat ds.

(** A string of white space only, and a string without a comma. *)
Definition all_white (v : string) : bool :=
  forallb Parse.is_white (list_ascii_of_string v).
Definition no_comma (v : string) : bool :=
  forallb (fun c => negb (Ascii.eqb c ",")) (list_ascii_of_string v).

(** A character that can continue a numeral: a digit, a point, a comma
    (which [toNumber] turns into a point) or an exponent mark. *)
Definition continues (c : ascii) : bool :=
  match Parse.digit_of c with
  | Some _ => true
  | None => Ascii.eqb c "." || Ascii.eqb c "," || Ascii.eqb c "e" || Ascii.eqb c "E"
  end.

(** A text that cannot continue a numeral: empty, or beginning with a
    character that does not. *)
Definition stops (v : string) : bool :=
  match v with
  | EmptyString => true
  | String c _ => negb (continues c)
  end.

(** A text that begins with neither white space nor a sign. *)
Definition unsigned_start (v : string) : bool :=
  match v with
  | EmptyString => true
  | String c _ => negb (Parse.is_white c || Ascii.eqb c "+" || Ascii.eqb c "-")
  end.

End Numeral.

(** ** Edge inputs *)

Module Edge.
Import CaloriesCalculator.

(** Distance mode with the initial 4 km, and 0 typed as the height. *)
Definition zero_height : State float :=
  setHeight (lit 0) (setInputMode ModeDistance initial).

(** The clicks and keystrokes that lead there. *)
Definition to_zero_height : list Event :=
  [ClickMode ModeDistance; TypeHeight "0"].

(** A session that touches every kind of control. *)
Definition session : list Event :=
  [TypeWeight "154"; SelectWeightUnit lb; TypeHeight "67"; SelectHeightUnit inch;
   TypeSteps "8000"; ClickMode ModeDistance; TypeDistanceKm "2,5";
   ClickMode ModeTime; TypeTimeMin "abc"; SelectPace jog; ClickSex female;
   CheckCustomStride true; TypeCustomStrideCm "1e999"; ClickReset].


End Edge.

(** * Properties *)

(** ** Literals and [Math.round] *)

(** On binary64 every decimal literal of the source denotes the value the
    JavaScript parser gives it. *)
Lemma float_literals :
  map (lit (num := float))
      [0.45359237; 2.54; 0.413; 0.415; 2.5; 3.0; 3.5; 4.3; 5.0; 7.0; 100;
       1000; 0.621371; 60; 200; 1.60934; 0; 70; 170; 5000; 4; 40]%Q
  = map (fun p => F64.of_decimal false (fst p) (snd p))
      [(45359237, -8); (254, -2); (413, -3); (415, -3); (25, -1); (30, -1);
       (35, -1); (43, -1); (50, -1); (70, -1); (100, 0); (1000, 0);
       (621371, -6); (60, 0); (200, 0); (160934, -5); (0, 0); (70, 0);
       (170, 0); (5000, 0); (4, 0); (40, 0)]%Z.
Proof. vm_compute. reflexivity. Qed.

(** Ties go up, also below zero; the largest number below one half goes
    to 0; a negative number that rounds to zero gives -0. *)
Example Math_round_binary64 :
  map (Math_round (num := float))
      [lit 2.5; lit (-2.5); lit 1.5; lit (-1.5); lit 0.5; lit (-0.5);
       lit 5321.6; lit (-0.4); F64.of_decimal false 49999999999999994 (-17);
       F64.of_Z 4503599627370497; PrimFloat.infinity; PrimFloat.nan]
  = [lit 3; lit (-2); lit 2; lit (-1); lit 1; PrimFloat.neg_zero;
     lit 5322; PrimFloat.neg_zero; PrimFloat.zero;
     F64.of_Z 4503599627370497; PrimFloat.infinity; PrimFloat.nan].
Proof. vm_compute. reflexivity. Qed.

Example Math_round_exact :
  map (Math_round (num := Q)) [2.5; -2.5; 1.5; -0.4; 5321.6]%Q
  = map inject_Z [3; -2; 2; 0; 5322]%Z.
Proof. vm_compute. reflexivity. Qed.

(** ** The parser *)

Example toNumber_examples :
  map toNumber ["1,5"; "70.55"; " 42"; "-0.5"; "1e3"; "12abc"; "1,234,5"]%string
  = map (lit (num := float)) [1.5; 70.55; 42; -0.5; 1000; 12; 1.234]%Q.
Proof. vm_compute. reflexivity. Qed.

Example toNumber_fallback :
  map toNumber [""; "abc"; "."; "Infinity"; "-Infinity"; "1e999"; "--7"; "e5"]%string
  = repeat PrimFloat.zero 8.
Proof. vm_compute. reflexivity. Qed.

Example parseFloat_not_finite :
  map parseFloat [""; "abc"; "Infinity"; "-Infinity"; "1e999"]%string
  = [PrimFloat.nan; PrimFloat.nan; PrimFloat.infinity; PrimFloat.neg_infinity;
     PrimFloat.infinity].
Proof. vm_compute. reflexivity. Qed.

Lemma toNumber_isFinite (v : string) : Number_isFinite (toNumber v) = true.
Proof.
  unfold toNumber.
  destruct (Number_isFinite (parseFloat (replace "," "." v))) eqn:E;
    [exact E | reflexivity].
Qed.

(** C8: [toNumber] maps every string to a finite number: the value
    [parseFloat] reads after the first comma has been turned into a decimal
    point when that value is finite, and 0 when the text is unparsable
    (NaN) or reads as an infinity. *)
Theorem C8_toNumber_finite_or_zero :
  forall v : string,
    Number_isFinite (toNumber v) = true
    /\ (Number_isFinite (parseFloat (replace "," "." v)) = true ->
        toNumber v = parseFloat (replace "," "." v))
    /\ (Number_isFinite (parseFloat (replace "," "." v)) = false ->
        toNumber v = PrimFloat.zero).
Proof.
  intro v. split; [apply toNumber_isFinite|]. unfold toNumber.
  destruct (Number_isFinite (parseFloat (replace "," "." v))).
  - split; [reflexivity | discriminate].
  - split; [discriminate | reflexivity].
Qed.

Lemma C8_toNumber_witness :
  Number_isFinite (toNumber "1,5") = true
  /\ toNumber "1,5" = lit 1.5
  /\ toNumber "abc" = PrimFloat.zero.
Proof.
  destruct (C8_toNumber_finite_or_zero "1,5") as (F & P & _).
  destruct (C8_toNumber_finite_or_zero "abc") as (_ & _ & Z).
  split; [exact F | split].
  - rewrite P; vm_compute; reflexivity.
  - apply Z. vm_compute. reflexivity.
Defined.

(** Every cell a [NumberInput] writes is therefore finite. *)
Lemma NumberInput_writes_finite (text : string) (s : CaloriesCalculator.State float) :
  Number_isFinite (CaloriesCalculator.weight
                     (NumberInput_onChange CaloriesCalculator.setWeight text s)) = true
  /\ Number_isFinite (CaloriesCalculator.customStrideCm
                        (NumberInput_onChange CaloriesCalculator.setCustomStrideCm text s)) = true.
Proof. split; apply toNumber_isFinite. Qed.

(** ** binary64 facts *)

Lemma Prim2SF_zero : Prim2SF PrimFloat.zero = S754_zero false.
Proof. reflexivity. Qed.

Lemma Prim2SF_neg_zero : Prim2SF PrimFloat.neg_zero = S754_zero true.
Proof. reflexivity. Qed.

Lemma is_zero_cases (x : float) :
  PrimFloat.is_zero x = true -> x = PrimFloat.zero \/ x = PrimFloat.neg_zero.
Proof.
  unfold PrimFloat.is_zero. rewrite FloatAxioms.eqb_spec, Prim2SF_zero.
  intro E. rewrite <- (SF2Prim_Prim2SF x).
  destruct (Prim2SF x) as [s | s | | s m e]; try destruct s; try discriminate E;
    [right | left]; reflexivity.
Qed.

(** A falsy number that is not NaN is one of the two zeros. *)
Lemma falsy_cases (x : float) :
  F64.to_boolean x = false -> PrimFloat.is_nan x = false ->
  x = PrimFloat.zero \/ x = PrimFloat.neg_zero.
Proof.
  unfold F64.to_boolean. intros F N. rewrite N, orb_false_r in F.
  apply is_zero_cases. now destruct (PrimFloat.is_zero x).
Qed.

(** For a number that is not below zero, [c || d] and [c > 0 ? c : d]
    agree. *)
Lemma or_is_positive_guard (c d : float) :
  PrimFloat.leb PrimFloat.zero c = true ->
  (c || d)%js = if (c >? lit 0)%js then c else d.
Proof.
  unfold js_or; cbn [truthy num_gtb lit float_number].
  change (F64.of_Q 0) with PrimFloat.zero.
  unfold F64.to_boolean, PrimFloat.is_zero, PrimFloat.is_nan.
  rewrite leb_spec, ltb_spec, !FloatAxioms.eqb_spec, Prim2SF_zero.
  destruct (Prim2SF c) as [s | s | | s m e]; try destruct s; cbn;
    try discriminate; try reflexivity.
  intros _. now rewrite Z.compare_refl, Pos.compare_cont_refl.
Qed.

(** A finite number is a zero or has a mantissa. *)
Lemma finite_cases (x : float) :
  PrimFloat.is_finite x = true ->
  (exists s, Prim2SF x = S754_zero s)
  \/ (exists s m e, Prim2SF x = S754_finite s m e).
Proof.
  unfold PrimFloat.is_finite, PrimFloat.is_nan, PrimFloat.is_infinity.
  rewrite !FloatAxioms.eqb_spec, abs_spec.
  assert (I : Prim2SF PrimFloat.infinity = S754_infinity false) by reflexivity.
  rewrite I.
  destruct (Prim2SF x) as [s | s | | s m e]; try destruct s; cbn;
    try discriminate; eauto.
Qed.

(** A finite number times 0 is zero. *)
Lemma finite_times_zero (x : float) :
  PrimFloat.is_finite x = true ->
  F64.same (PrimFloat.mul x PrimFloat.zero) PrimFloat.zero.
Proof.
  intro F. right. rewrite FloatAxioms.eqb_spec, mul_spec, Prim2SF_zero.
  destruct (finite_cases x F) as [[s ->] | (s & m & e & ->)]; reflexivity.
Qed.

(** Multiplying by either zero and dividing by a positive constant gives
    the same number (a zero of either sign, or NaN). *)
Lemma signed_zero_product (t d : float) (m : positive) (e : Z) :
  Prim2SF d = S754_finite false m e ->
  F64.same (PrimFloat.div (PrimFloat.mul PrimFloat.zero t) d)
           (PrimFloat.div (PrimFloat.mul PrimFloat.neg_zero t) d).
Proof.
  intro D.
  destruct (Prim2SF t) as [s | s | | s mt et] eqn:T.
  - right. rewrite FloatAxioms.eqb_spec, !div_spec, !mul_spec.
    rewrite Prim2SF_zero, Prim2SF_neg_zero, T, D. destruct s; reflexivity.
  - left. apply Prim2SF_inj. rewrite !div_spec, !mul_spec.
    rewrite Prim2SF_zero, Prim2SF_neg_zero, T. reflexivity.
  - left. apply Prim2SF_inj. rewrite !div_spec, !mul_spec.
    rewrite Prim2SF_zero, Prim2SF_neg_zero, T. reflexivity.
  - right. rewrite FloatAxioms.eqb_spec, !div_spec, !mul_spec.
    rewrite Prim2SF_zero, Prim2SF_neg_zero, T, D. destruct s; reflexivity.
Qed.

(** *** Signs *)

Lemma not_negative_spec (x : float) :
  F64.not_negative x = true <-> F64.sf_not_negative (Prim2SF x).
Proof.
  unfold F64.not_negative. rewrite negb_true_iff, ltb_spec, Prim2SF_zero.
  destruct (Prim2SF x) as [s | s | | s m e]; try destruct s; cbn;
    intuition congruence.
Qed.

Lemma positive_spec (x : float) :
  (x >? lit 0)%js = true -> F64.sf_positive (Prim2SF x).
Proof.
  cbn [num_gtb lit float_number]. change (F64.of_Q 0) with PrimFloat.zero.
  rewrite ltb_spec, Prim2SF_zero.
  destruct (Prim2SF x) as [s | s | | s m e]; try destruct s; cbn;
    intuition congruence.
Qed.

Lemma positive_not_negative (x : float) :
  F64.sf_positive (Prim2SF x) -> F64.not_negative x = true.
Proof.
  rewrite not_negative_spec. destruct (Prim2SF x); cbn; auto.
Qed.

(** Rounding keeps the sign it is given. *)
Lemma binary_round_aux_sign (sx : bool) (mx ex : Z) (lx : location) :
  match binary_round_aux prec emax sx mx ex lx with
  | S754_zero s | S754_infinity s | S754_finite s _ _ => s = sx
  | S754_nan => True
  end.
Proof.
  unfold binary_round_aux.
  destruct (shr_fexp prec emax mx ex lx) as [mrs' e'].
  destruct (shr_fexp prec emax _ e' loc_Exact) as [mrs'' e''].
  destruct (shr_m mrs''); [reflexivity | | exact I].
  destruct (Z.leb e'' (emax - prec)); reflexivity.
Qed.

Lemma round_not_negative (mx ex : Z) (lx : location) :
  F64.sf_not_negative (binary_round_aux prec emax false mx ex lx).
Proof.
  pose proof (binary_round_aux_sign false mx ex lx) as S.
  destruct (binary_round_aux prec emax false mx ex lx); cbn; auto.
Qed.

Lemma mul_not_negative (x y : float) :
  F64.not_negative x = true -> F64.not_negative y = true ->
  F64.not_negative (PrimFloat.mul x y) = true.
Proof.
  rewrite !not_negative_spec, mul_spec. unfold SF64mul, SFmul.
  destruct (Prim2SF x) as [sx | sx | | sx mx ex],
           (Prim2SF y) as [sy | sy | | sy my ey];
    cbn; intros Hx Hy; subst; cbn; auto using round_not_negative.
Qed.

Lemma div_not_negative (x y : float) :
  F64.not_negative x = true -> F64.sf_positive (Prim2SF y) ->
  F64.not_negative (PrimFloat.div x y) = true.
Proof.
  rewrite !not_negative_spec, div_spec. unfold SF64div, SFdiv.
  destruct (Prim2SF x) as [sx | sx | | sx mx ex],
           (Prim2SF y) as [sy | sy | | sy my ey];
    cbn; intros Hx Hy; subst; cbn; auto; try contradiction.
  destruct (SFdiv_core_binary prec emax (Z.pos mx) ex (Z.pos my) ey) as [[mz ez] lz].
  apply round_not_negative.
Qed.

Lemma or_not_negative (x y : float) :
  F64.not_negative x = true -> F64.not_negative y = true ->
  F64.not_negative (x || y)%js = true.
Proof. intros X Y. unfold js_or. now destruct (truthy x). Qed.

(** ** The engine over exact arithmetic *)

(** On [Q] the operators are those of the rationals.  The engine divides
    by the constants 100, 1000 and 200, by [mph] under the guard
    [mph > 0] and by [minutes] under the guard [minutes > 0] only, so no
    quotient below has a zero divisor. *)

Section Exact.
Local Open Scope Q_scope.


Lemma exact_or_zero (a : Q) : (a || lit 0)%js == a.
Proof.
  unfold js_or. cbn [truthy lit exact_number].
  destruct (Qeq_bool a 0) eqn:E; cbn [negb]; [|reflexivity].
  apply Qeq_bool_eq in E. now rewrite E.
Qed.


Variable tbl : PaceKey -> Pace.Row Q.
Variable a : Engine.Args Q.



Lemma exact_distanceKm :
  Engine.distanceKm (Engine.walkingCalc tbl a)
  == Engine.steps a * (Engine.strideCm (Engine.walkingCalc tbl a) / 100) / 1000.
Proof.
  cbn [Engine.walkingCalc Engine.distanceKm Engine.strideCm
       num_mul num_div lit exact_number].
  now rewrite exact_or_zero.
Qed.







(** Zero speed: the guard gives [hours = 0], hence no minutes and no
    calories. *)
Lemma exact_zero_speed :
  Pace.mph (tbl (Engine.pace a)) == 0 ->
  Engine.hours (Engine.walkingCalc tbl a) == 0
  /\ Engine.minutes (Engine.walkingCalc tbl a) == 0
  /\ Engine.calories (Engine.walkingCalc tbl a) == 0.
Proof.
  intro M.
  cbn [Engine.walkingCalc Engine.hours Engine.minutes Engine.calories
       num_gtb num_mul num_div lit exact_number].
  assert (G : negb (Qle_bool (Pace.mph (tbl (Engine.pace a))) 0) = false).
  { apply negb_false_iff, Qle_bool_iff. rewrite M. apply Qle_refl. }
  rewrite G. repeat split; try reflexivity; field.
Qed.

End Exact.

(** ** The engine's formulae *)

(** C2: the calories output is [mets * 3.5 * weightKg * (minutes / 200)],
    with [mets] read from the pace table at the given pace and [weightKg]
    the weight itself for kg and [weight * 0.45359237] for lb.  The
    identity holds on every carrier, binary64 included, since the engine
    evaluates exactly this expression. *)
Theorem C2_calories_formula :
  forall (num : Type) (N : JsNumber num) (a : Engine.Args num),
    Engine.calories (Engine.useWalkingCalc a)
    = (Pace.mets (PACE (Engine.pace a)) * lit 3.5 * Engine.weightKg a
       * (Engine.minutes (Engine.useWalkingCalc a) / lit 200))%js
    /\ Engine.weightKg a
       = match Engine.weightUnit a with
         | kg => Engine.weight a
         | lb => (Engine.weight a * lit 0.45359237)%js
         end.
Proof.
  intros num N a. split.
  - reflexivity.
  - unfold Engine.weightKg. destruct (Engine.weightUnit a); reflexivity.
Qed.

(** On binary64: 70 kg is taken as it is, 154 lb become 69.853 kg, and the
    MET values are those of the table. *)
Example weightKg_examples :
  Engine.weightKg Scenario.brisk_5000 = lit 70
  /\ F64.within (lit 0.001) (lit 69.853)
       (Engine.weightKg
          (CaloriesCalculator.props
             (CaloriesCalculator.setWeightUnit lb
                (CaloriesCalculator.setWeight (lit 154) CaloriesCalculator.initial))))
     = true
  /\ map (fun k => Pace.mets (PACE (num := float) k)) [easy; brisk; power; jog]
     = [lit 3.0; lit 4.3; lit 5.0; lit 7.0].
Proof. repeat split; vm_compute; reflexivity. Qed.

(** The stride falls back to the automatic one whenever the custom stride
    is falsy, on every carrier. *)
Lemma falsy_custom_stride_falls_back
    (num : Type) (N : JsNumber num) (tbl : PaceKey -> Pace.Row num)
    (a : Engine.Args num) :
  truthy (Engine.customStrideCm a) = false ->
  Engine.strideCm (Engine.walkingCalc tbl a)
  = Engine.strideAuto (Engine.walkingCalc tbl a).
Proof.
  intro F. cbn [Engine.walkingCalc Engine.strideCm Engine.strideAuto].
  unfold js_or. rewrite F. now destruct (Engine.useCustomStride a).
Qed.

(** C3: with [useCustomStride = true] and [customStrideCm = 0] the stride
    the engine uses is [strideAuto = heightCm * strideFactor[sex]]. *)
Theorem C3_zero_custom_stride_is_auto :
  forall a : Engine.Args float,
    Engine.useCustomStride a = true ->
    Engine.customStrideCm a = PrimFloat.zero ->
    Engine.strideCm (Engine.useWalkingCalc a)
    = Engine.strideAuto (Engine.useWalkingCalc a)
    /\ Engine.strideAuto (Engine.useWalkingCalc a)
       = (Engine.heightCm a * STRIDE_FACTORS (Engine.sex a))%js.
Proof.
  intros a _ Z. split.
  - apply falsy_custom_stride_falls_back. rewrite Z. reflexivity.
  - reflexivity.
Qed.

Lemma C3_witness :
  Engine.strideCm (Engine.useWalkingCalc Scenario.custom_zero)
  = Engine.strideAuto (Engine.useWalkingCalc Scenario.custom_zero)
  /\ Engine.strideAuto (Engine.useWalkingCalc Scenario.custom_zero)
     = (Engine.heightCm Scenario.custom_zero
        * STRIDE_FACTORS (Engine.sex Scenario.custom_zero))%js.
Proof.
  apply (C3_zero_custom_stride_is_auto Scenario.custom_zero); reflexivity.
Defined.

(** The negative zero and NaN are falsy as well; a positive custom stride
    is used, and so is a negative one. *)
Example custom_stride_examples :
  map (fun c => (c || lit 70.55)%js)
      [PrimFloat.zero; PrimFloat.neg_zero; PrimFloat.nan; lit 80; lit (-5)]
  = [lit 70.55; lit 70.55; lit 70.55; lit 80; lit (-5)].
Proof. vm_compute. reflexivity. Qed.

(** The same fallback on the exact carrier. *)
Example custom_stride_exact :
  map (fun c => (c || 70.55)%js) [0; 0 # 7; 80; -5]%Q = [70.55; 70.55; 80; -5]%Q.
Proof. reflexivity. Qed.

(** ** Distance *)

(** C4: [distanceKm = effectiveSteps * (strideCm / 100) / 1000] and
    [distanceMi = distanceKm * 0.621371]: in exact arithmetic for every
    input, and on binary64 for every step count that is a number.  The
    engine multiplies [steps || 0], which is the step count itself unless
    that is -0 (then the product is the same zero up to its sign). *)
Theorem C4_distance_formulae :
  (forall a : Engine.Args Q,
      Engine.distanceKm (Engine.useWalkingCalc a)
      == Engine.steps a * (Engine.strideCm (Engine.useWalkingCalc a) / 100) / 1000
      /\ Engine.distanceMi (Engine.useWalkingCalc a)
         == Engine.distanceKm (Engine.useWalkingCalc a) * 0.621371)
  /\ (forall a : Engine.Args float,
         PrimFloat.is_nan (Engine.steps a) = false ->
         F64.same (Engine.distanceKm (Engine.useWalkingCalc a))
           (Engine.steps a * (Engine.strideCm (Engine.useWalkingCalc a) / lit 100)
            / lit 1000)%js
         /\ Engine.distanceMi (Engine.useWalkingCalc a)
            = (Engine.distanceKm (Engine.useWalkingCalc a) * lit 0.621371)%js).
Proof.
  split.
  - intro a. split; [apply exact_distanceKm | reflexivity].
  - intros a N. split; [|reflexivity].
    cbn [Engine.useWalkingCalc Engine.walkingCalc Engine.distanceKm Engine.strideCm].
    set (stride := if Engine.useCustomStride a then _ else _).
    unfold js_or at 1. cbn [truthy float_number].
    destruct (F64.to_boolean (Engine.steps a)) eqn:T.
    + left. reflexivity.
    + destruct (falsy_cases _ T N) as [-> | ->].
      * left. reflexivity.
      * cbn [num_mul num_div float_number].
        change (lit 0) with PrimFloat.zero.
        eapply signed_zero_product. vm_compute. reflexivity.
Qed.

Lemma C4_witness :
  F64.same (Engine.distanceKm (Engine.useWalkingCalc Scenario.brisk_5000))
    (Engine.steps Scenario.brisk_5000
     * (Engine.strideCm (Engine.useWalkingCalc Scenario.brisk_5000) / lit 100)
     / lit 1000)%js
  /\ Engine.distanceMi (Engine.useWalkingCalc Scenario.brisk_5000)
     = (Engine.distanceKm (Engine.useWalkingCalc Scenario.brisk_5000)
        * lit 0.621371)%js.
Proof.
  apply (proj2 C4_distance_formulae Scenario.brisk_5000). reflexivity.
Defined.

(** A step count that is NaN is replaced by 0: the distance is then 0 where
    the formula gives NaN.  [calcSteps] yields NaN only for inputs outside
    the data model, such as height 0 with distance 0. *)
Example distance_of_NaN_steps :
  let s := CaloriesCalculator.setHeight (lit 0)
             (CaloriesCalculator.setDistanceKm (lit 0)
                (CaloriesCalculator.setInputMode ModeDistance
                   CaloriesCalculator.initial)) in
  PrimFloat.is_nan (CaloriesCalculator.calcSteps s) = true
  /\ Engine.distanceKm (CaloriesCalculator.r s) = PrimFloat.zero.
Proof. vm_compute. split; reflexivity. Qed.

(** ** The guards on the divisions *)

(** Zero speed on binary64: [hours] and [minutes] are +0 by the guard, and
    the calories are the weight term times 0. *)
Lemma zero_speed_binary64 (tbl : PaceKey -> Pace.Row float) (a : Engine.Args float) :
  Pace.mph (tbl (Engine.pace a)) = PrimFloat.zero ->
  Engine.hours (Engine.walkingCalc tbl a) = PrimFloat.zero
  /\ Engine.minutes (Engine.walkingCalc tbl a) = PrimFloat.zero
  /\ Engine.calories (Engine.walkingCalc tbl a)
     = PrimFloat.mul
         (Pace.mets (tbl (Engine.pace a)) * lit 3.5 * Engine.weightKg a)%js
         PrimFloat.zero.
Proof.
  intro M.
  cbn [Engine.walkingCalc Engine.hours Engine.minutes Engine.calories].
  rewrite M. repeat split.
Qed.

(** C5: the division paths are guarded.
    - Zero speed: [hours = 0], [minutes = 0] and [calories = 0]: in exact
      arithmetic for every input, and on binary64 with the calories 0
      whenever the weight term [mets * 3.5 * weightKg] is finite.
    - Minutes not positive: [cadence = 0], on every carrier.
    - Weight 0 and 0 steps: calories, distanceKm and cadence are 0 and
      every output is finite, whatever the units, sex, pace and stride
      switch. *)
Theorem C5_division_guards :
  (forall (tbl : PaceKey -> Pace.Row Q) (a : Engine.Args Q),
      Pace.mph (tbl (Engine.pace a)) == 0 ->
      Engine.hours (Engine.walkingCalc tbl a) == 0
      /\ Engine.minutes (Engine.walkingCalc tbl a) == 0
      /\ Engine.calories (Engine.walkingCalc tbl a) == 0)
  /\ (forall (tbl : PaceKey -> Pace.Row float) (a : Engine.Args float),
         Pace.mph (tbl (Engine.pace a)) = PrimFloat.zero ->
         Engine.hours (Engine.walkingCalc tbl a) = PrimFloat.zero
         /\ Engine.minutes (Engine.walkingCalc tbl a) = PrimFloat.zero
         /\ (PrimFloat.is_finite
               (Pace.mets (tbl (Engine.pace a)) * lit 3.5 * Engine.weightKg a)%js = true ->
             F64.same (Engine.calories (Engine.walkingCalc tbl a)) PrimFloat.zero))
  /\ (forall (num : Type) (N : JsNumber num) (tbl : PaceKey -> Pace.Row num)
             (a : Engine.Args num),
         (Engine.minutes (Engine.walkingCalc tbl a) >? lit 0)%js = false ->
         Engine.cadence (Engine.walkingCalc tbl a) = lit 0)
  /\ (forall wu hu sx pc custom,
         let r := Engine.useWalkingCalc (Scenario.all_zero wu hu sx pc custom) in
         Engine.calories r = PrimFloat.zero
         /\ Engine.distanceKm r = PrimFloat.zero
         /\ Engine.cadence r = PrimFloat.zero
         /\ forallb PrimFloat.is_finite (Engine.outputs r) = true).
Proof.
  split; [|split; [|split]].
  - exact exact_zero_speed.
  - intros tbl a M.
    destruct (zero_speed_binary64 tbl a M) as (H & Mi & C).
    repeat split; [exact H | exact Mi |].
    intro F. rewrite C. now apply finite_times_zero.
  - intros num N tbl a G.
    cbn [Engine.walkingCalc Engine.cadence Engine.minutes] in *.
    now rewrite G.
  - intros wu hu sx pc custom.
    destruct wu, hu, sx, pc, custom; vm_compute; repeat split.
Qed.

Lemma C5_witness :
  Engine.calories (Engine.walkingCalc Scenario.stalled Scenario.brisk_5000_exact) == 0
  /\ (Engine.hours (Engine.walkingCalc Scenario.stalled Scenario.brisk_5000)
      = PrimFloat.zero
      /\ Engine.minutes (Engine.walkingCalc Scenario.stalled Scenario.brisk_5000)
         = PrimFloat.zero
      /\ F64.same
           (Engine.calories (Engine.walkingCalc Scenario.stalled Scenario.brisk_5000))
           PrimFloat.zero)
  /\ Engine.cadence (Engine.walkingCalc Scenario.stalled Scenario.brisk_5000) = lit 0.
Proof.
  destruct C5_division_guards as (E & B & G & _).
  split; [|split].
  - apply (E Scenario.stalled). vm_compute. reflexivity.
  - destruct (B Scenario.stalled Scenario.brisk_5000) as (H & M & C);
      [vm_compute; reflexivity|].
    split; [exact H | split; [exact M |]]. apply C. vm_compute. reflexivity.
  - apply (G float float_number Scenario.stalled Scenario.brisk_5000).
    vm_compute. reflexivity.
Defined.

(** Where the weight term overflows, its product with 0 is NaN: a weight
    of 1e308 kg at zero speed. *)
Example zero_speed_overflow :
  PrimFloat.is_nan
    (Engine.calories
       (Engine.walkingCalc Scenario.stalled
          (Engine.with_weight (F64.of_decimal false 1 308) Scenario.brisk_5000)))
  = true.
Proof. vm_compute. reflexivity. Qed.

(** No row of the source's table has speed 0. *)
Lemma PACE_speed_positive (k : PaceKey) :
  (Pace.mph (PACE (num := float) k) >? lit 0)%js = true
  /\ (0 < Pace.mph (PACE (num := Q) k))%Q.
Proof. destruct k; split; reflexivity. Qed.

(** ** Calories: sign and monotonicity *)



(** On binary64 the calories are never below zero for inputs that are not
    below zero: rounding keeps signs.  (They are NaN when the weight term
    overflows against a zero duration.) *)
Lemma calories_not_negative_binary64
    (tbl : PaceKey -> Pace.Row float) (a : Engine.Args float) :
  F64.not_negative (Engine.steps a) = true ->
  F64.not_negative (Engine.customStrideCm a) = true ->
  F64.not_negative (Engine.height a) = true ->
  F64.not_negative (Engine.weight a) = true ->
  F64.not_negative (Pace.mets (tbl (Engine.pace a))) = true ->
  F64.not_negative (Engine.calories (Engine.walkingCalc tbl a)) = true.
Proof.
  intros S C H W M.
  assert (L : forall q, PrimFloat.ltb PrimFloat.zero (lit q) = true ->
                        F64.sf_positive (Prim2SF (lit q)))
    by (intros q Lq; now apply positive_spec).
  assert (P : forall q, PrimFloat.ltb PrimFloat.zero (lit q) = true ->
                        F64.not_negative (lit q) = true)
    by (intros q Lq; now apply positive_not_negative, L).
  assert (Hc : F64.not_negative (Engine.heightCm a) = true).
  { unfold Engine.heightCm. destruct (Engine.heightUnit a); [exact H|].
    apply mul_not_negative; [exact H | now apply P]. }
  assert (Wk : F64.not_negative (Engine.weightKg a) = true).
  { unfold Engine.weightKg. destruct (Engine.weightUnit a); [exact W|].
    apply mul_not_negative; [exact W | now apply P]. }
  assert (Sa : F64.not_negative (Engine.strideAuto (Engine.walkingCalc tbl a)) = true).
  { apply mul_not_negative; [exact Hc|].
    unfold STRIDE_FACTORS. destruct (Engine.sex a); now apply P. }
  assert (St : F64.not_negative (Engine.strideCm (Engine.walkingCalc tbl a)) = true).
  { cbn [Engine.walkingCalc Engine.strideCm Engine.strideAuto] in *.
    destruct (Engine.useCustomStride a); [now apply or_not_negative | exact Sa]. }
  assert (Dm : F64.not_negative (Engine.distanceMi (Engine.walkingCalc tbl a)) = true).
  { cbn [Engine.walkingCalc Engine.distanceMi Engine.strideCm] in *.
    apply mul_not_negative; [|now apply P].
    apply div_not_negative; [|now apply L].
    apply mul_not_negative.
    - apply or_not_negative; [exact S | reflexivity].
    - apply div_not_negative; [exact St | now apply L]. }
  assert (Mi : F64.not_negative (Engine.minutes (Engine.walkingCalc tbl a)) = true).
  { cbn [Engine.walkingCalc Engine.minutes Engine.distanceMi] in *.
    apply mul_not_negative; [|now apply P].
    destruct (Pace.mph (tbl (Engine.pace a)) >? lit 0)%js eqn:G; [|reflexivity].
    apply div_not_negative; [exact Dm | now apply positive_spec]. }
  cbn [Engine.walkingCalc Engine.calories Engine.minutes] in *.
  apply mul_not_negative.
  - repeat apply mul_not_negative; try assumption. now apply P.
  - apply div_not_negative; [exact Mi | now apply L].
Qed.

(** On binary64, at the first render's props: more weight and a higher
    MET value give more calories. *)
Example calories_binary64_monotone :
  let cal tbl w :=
    Engine.calories (Engine.walkingCalc tbl (Engine.with_weight w Scenario.brisk_5000)) in
  map (fun w => PrimFloat.leb (cal PACE (fst w)) (cal PACE (snd w)))
      [(lit 0, lit 50); (lit 50, lit 70); (lit 70, lit 70.5); (lit 70.5, lit 120)]
  = [true; true; true; true]
  /\ PrimFloat.leb (cal PACE (lit 70)) (cal Scenario.harder (lit 70)) = true
  /\ PrimFloat.leb PrimFloat.zero (cal PACE (lit 0)) = true.
Proof. vm_compute. repeat split. Qed.

(** ** Cadence *)



(** On binary64 the cadences for 5000 and for 5323 steps (same stride and
    speed) are 133.06651884299487 and 133.06651884299484: they agree with
    each other and with the closed form to twelve decimals, and differ in
    their last digits. *)
Example cadence_binary64_rounding :
  let a := Scenario.brisk_5000 in
  let b := Engine.with_steps (lit 5323) Scenario.brisk_5000 in
  let closed := (lit 3.5 * lit 100000 / (lit 60 * lit 0.621371 * lit 70.55))%js in
  F64.within (F64.of_decimal false 1 (-12))
    (Engine.cadence (Engine.useWalkingCalc a))
    (Engine.cadence (Engine.useWalkingCalc b)) = true
  /\ F64.within (F64.of_decimal false 1 (-12)) closed
       (Engine.cadence (Engine.useWalkingCalc a)) = true
  /\ Engine.cadence (Engine.useWalkingCalc a)
     = F64.of_decimal false 13306651884299487 (-14)
  /\ Engine.cadence (Engine.useWalkingCalc b)
     = F64.of_decimal false 13306651884299484 (-14)
  /\ Engine.cadence (Engine.useWalkingCalc a)
     <> Engine.cadence (Engine.useWalkingCalc b).
Proof.
  cbv zeta. repeat split; try (vm_compute; reflexivity).
  intro E. apply (f_equal Prim2SF) in E. vm_compute in E. discriminate E.
Qed.

(** ** The worked scenario *)

(** The scenario's props are those of the component's first render. *)
Lemma brisk_5000_is_initial :
  CaloriesCalculator.props CaloriesCalculator.initial = Scenario.brisk_5000.
Proof. reflexivity. Qed.

(** C7, as the specification states it, fails: for weight 70 kg, height
    170 cm, 5000 steps, male, brisk the engine's calories are 197.93, not
    396.9 (the claimed figure is twice the engine's, which no tolerance on
    a four-digit figure covers); the miles and the hours round to 2.1919
    and 0.6263, not to 2.1923 and 0.6264. *)
Lemma C7_counterexample :
  let r := Engine.useWalkingCalc Scenario.brisk_5000 in
  F64.within (lit 1) (lit 396.9) (Engine.calories r) = false
  /\ PrimFloat.ltb (Engine.calories r) (lit 198) = true
  /\ F64.within (lit 0.00005) (lit 2.1923) (Engine.distanceMi r) = false
  /\ F64.within (lit 0.00005) (lit 0.6264) (Engine.hours r) = false.
Proof. vm_compute. repeat split. Qed.

(** C7, amended: the same input gives strideAuto = 70.55 cm,
    distanceKm = 3.5275, distanceMi = 2.1919, mph = 3.5, hours = 0.6263,
    minutes = 37.58 and calories = 197.9, each to half a unit of its last
    digit. *)
Theorem C7_brisk_5000_metrics :
  let r := Engine.useWalkingCalc Scenario.brisk_5000 in
  F64.within (lit 0.005) (lit 70.55) (Engine.strideAuto r) = true
  /\ F64.within (lit 0.00005) (lit 3.5275) (Engine.distanceKm r) = true
  /\ F64.within (lit 0.00005) (lit 2.1919) (Engine.distanceMi r) = true
  /\ Engine.mph r = lit 3.5
  /\ F64.within (lit 0.00005) (lit 0.6263) (Engine.hours r) = true
  /\ F64.within (lit 0.005) (lit 37.58) (Engine.minutes r) = true
  /\ F64.within (lit 0.05) (lit 197.9) (Engine.calories r) = true.
Proof. vm_compute. repeat split. Qed.

(** The exact rationals give the same figures: 70.55 cm and 3.5275 km
    exactly, 2.1918862025 mi, and calories between 197.92 and 197.93. *)
Example brisk_5000_exact_metrics :
  let r := Engine.useWalkingCalc Scenario.brisk_5000_exact in
  Engine.strideAuto r == 70.55 /\ Engine.distanceKm r == 3.5275
  /\ Engine.distanceMi r == 2.1918862025
  /\ 197.92 < Engine.calories r /\ Engine.calories r < 197.93.
Proof. vm_compute. repeat split. Qed.

(** ** The derived step count *)

(** Where the height is in centimetres and the custom stride is not
    below zero, [calcSteps] is the specification's formula. *)
Lemma calcSteps_meets_spec_cm (s : CaloriesCalculator.State float) :
  CaloriesCalculator.inputMode s <> ModeSteps ->
  CaloriesCalculator.heightUnit s = cm ->
  PrimFloat.leb PrimFloat.zero (CaloriesCalculator.customStrideCm s) = true ->
  CaloriesCalculator.calcSteps s = Spec.effectiveSteps s.
Proof.
  intros M U C.
  assert (St : CaloriesCalculator.calcStride s = Spec.effectiveStride s).
  { unfold CaloriesCalculator.calcStride, Spec.effectiveStride, Spec.height_cm.
    rewrite U. destruct (CaloriesCalculator.useCustomStride s); [|reflexivity].
    rewrite (or_is_positive_guard _ _ C). reflexivity. }
  assert (K : CaloriesCalculator.km s = Spec.km s) by reflexivity.
  unfold CaloriesCalculator.calcSteps, Spec.effectiveSteps.
  rewrite St, K. destruct (CaloriesCalculator.inputMode s); congruence.
Qed.

(** [calcSteps] never reads [heightUnit]: switching the unit leaves the
    derived step count as it is, on every carrier. *)
Lemma calcSteps_ignores_unit (num : Type) (N : JsNumber num)
    (u : HeightUnit) (s : CaloriesCalculator.State num) :
  CaloriesCalculator.calcSteps (CaloriesCalculator.setHeightUnit u s)
  = CaloriesCalculator.calcSteps s.
Proof. reflexivity. Qed.

(** C1, at a failing input: with the height typed as 67 in and 4 km
    entered in distance mode, [calcSteps] divides by a stride of
    67 * 0.415 "cm" and returns 14386 steps, where the specification's
    formula (67 in = 170.18 cm) gives 5664, the number [calcSteps] itself
    returns for the same height typed in centimetres.  The engine, which
    does convert the height, then reports 10.16 km walked for the 4 km
    entered. *)
Theorem C1_calcSteps_ignores_heightUnit :
  CaloriesCalculator.inputMode Scenario.inches_4km = ModeDistance
  /\ CaloriesCalculator.calcSteps Scenario.inches_4km = lit 14386
  /\ Spec.effectiveSteps Scenario.inches_4km = lit 5664
  /\ CaloriesCalculator.calcSteps Scenario.cm_4km = lit 5664
  /\ F64.within (lit 0.005) (lit 10.16)
       (Engine.distanceKm (CaloriesCalculator.r Scenario.inches_4km)) = true
  /\ F64.within (lit 0.005) (lit 4)
       (Engine.distanceKm (CaloriesCalculator.r Scenario.cm_4km)) = true.
Proof. vm_compute. repeat split. Qed.

(** The same on the exact carrier: 14386 against 5664. *)
Example calcSteps_inches_exact :
  let s := CaloriesCalculator.setInputMode ModeDistance
             (CaloriesCalculator.setHeightUnit inch
                (CaloriesCalculator.setHeight 67 (CaloriesCalculator.initial (num := Q)))) in
  CaloriesCalculator.calcSteps s == 14386 /\ Spec.effectiveSteps s == 5664.
Proof. vm_compute. split; reflexivity. Qed.

(** The time mode (40 min, brisk, 170 cm): 3.755 km and 5323 steps, by the
    code and by the specification's formula alike. *)
Example calcSteps_time_mode :
  let s := CaloriesCalculator.setInputMode ModeTime CaloriesCalculator.initial in
  F64.within (lit 0.0005) (lit 3.755) (CaloriesCalculator.km s) = true
  /\ CaloriesCalculator.calcSteps s = lit 5323
  /\ CaloriesCalculator.calcSteps s = Spec.effectiveSteps s.
Proof. vm_compute. repeat split. Qed.

(** In steps mode the step count is the typed one. *)
Lemma calcSteps_steps_mode (num : Type) (N : JsNumber num)
    (s : CaloriesCalculator.State num) :
  CaloriesCalculator.inputMode s = ModeSteps ->
  CaloriesCalculator.calcSteps s = CaloriesCalculator.steps s.
Proof. intro M. unfold CaloriesCalculator.calcSteps. now rewrite M. Qed.

(** ** The Reset handler *)

(** C10: Reset sets weight to 70, steps to 5000, distanceKm to 4, timeMin
    to 40, inputMode to steps and useCustomStride to false; height,
    heightUnit, weightUnit, pace, sex and customStrideCm keep their
    values. *)
Theorem C10_resetAll_frame :
  forall (num : Type) (N : JsNumber num) (s : CaloriesCalculator.State num),
    let s' := CaloriesCalculator.resetAll s in
    (CaloriesCalculator.weight s' = lit 70
     /\ CaloriesCalculator.steps s' = lit 5000
     /\ CaloriesCalculator.distanceKm s' = lit 4
     /\ CaloriesCalculator.timeMin s' = lit 40
     /\ CaloriesCalculator.inputMode s' = ModeSteps
     /\ CaloriesCalculator.useCustomStride s' = false)
    /\ (CaloriesCalculator.height s' = CaloriesCalculator.height s
        /\ CaloriesCalculator.heightUnit s' = CaloriesCalculator.heightUnit s
        /\ CaloriesCalculator.weightUnit s' = CaloriesCalculator.weightUnit s
        /\ CaloriesCalculator.pace s' = CaloriesCalculator.pace s
        /\ CaloriesCalculator.sex s' = CaloriesCalculator.sex s
        /\ CaloriesCalculator.customStrideCm s' = CaloriesCalculator.customStrideCm s).
Proof. intros num N s. cbv zeta. repeat split. Qed.

(** Reset does not bring back the first render: after the height has been
    typed in inches and a custom stride entered, Reset leaves both in
    place. *)
Example resetAll_keeps_height_and_stride :
  let s := CaloriesCalculator.setCustomStrideCm (lit 80) Scenario.inches_4km in
  CaloriesCalculator.height (CaloriesCalculator.resetAll s) = lit 67
  /\ CaloriesCalculator.heightUnit (CaloriesCalculator.resetAll s) = inch
  /\ CaloriesCalculator.customStrideCm (CaloriesCalculator.resetAll s) = lit 80
  /\ CaloriesCalculator.resetAll s <> CaloriesCalculator.initial.
Proof.
  cbv zeta. repeat split.
  intro E. apply (f_equal CaloriesCalculator.heightUnit) in E. discriminate E.
Qed.

(** Reset is idempotent, and the setters it calls commute. *)
Lemma resetAll_idempotent (num : Type) (N : JsNumber num)
    (s : CaloriesCalculator.State num) :
  CaloriesCalculator.resetAll (CaloriesCalculator.resetAll s)
  = CaloriesCalculator.resetAll s.
Proof. reflexivity. Qed.

Lemma resetAll_order_irrelevant (num : Type) (N : JsNumber num)
    (s : CaloriesCalculator.State num) :
  CaloriesCalculator.resetAll s
  = CaloriesCalculator.setWeight (lit 70)
      (CaloriesCalculator.setSteps (lit 5000)
         (CaloriesCalculator.setDistanceKm (lit 4)
            (CaloriesCalculator.setTimeMin (lit 40)
               (CaloriesCalculator.setInputMode ModeSteps
                  (CaloriesCalculator.setUseCustomStride false s))))).
Proof. reflexivity. Qed.

(** * Further properties *)

(** ** What [toNumber] reads *)

Lemma replace_no_comma (v : string) :
  Numeral.no_comma v = true -> replace "," "." v = v.
Proof.
  unfold Numeral.no_comma. induction v as [|c r IH]; [reflexivity|].
  cbn [list_ascii_of_string forallb replace]. intro H.
  apply andb_true_iff in H. destruct H as [C R].
  apply negb_true_iff in C. rewrite C. now rewrite IH.
Qed.

Lemma replace_first_comma (a b : string) :
  Numeral.no_comma a = true ->
  replace "," "." (a ++ String "," b) = (a ++ String "." b)%string.
Proof.
  unfold Numeral.no_comma. induction a as [|c r IH].
  - reflexivity.
  - cbn [list_ascii_of_string forallb replace append]. intro H.
    apply andb_true_iff in H. destruct H as [C R].
    apply negb_true_iff in C. rewrite C. now rewrite IH.
Qed.

Lemma no_comma_app (a b : string) :
  Numeral.no_comma (a ++ b) = (Numeral.no_comma a && Numeral.no_comma b)%bool.
Proof.
  unfold Numeral.no_comma. induction a as [|c r IH]; [reflexivity|].
  cbn [append list_ascii_of_string forallb]. now rewrite IH, andb_assoc.
Qed.

(** X1: the first comma of the typed text is read as a decimal point, and
    a text without a comma is read as typed. *)
Theorem X1_first_comma_is_point :
  forall a b : string,
    Numeral.no_comma a = true ->
    toNumber (a ++ String "," b)
    = (let n := parseFloat (a ++ String "." b) in
       if Number_isFinite n then n else PrimFloat.zero)
    /\ (Numeral.no_comma b = true ->
        toNumber (a ++ String "," b) = toNumber (a ++ String "." b)).
Proof.
  intros a b A. unfold toNumber. rewrite (replace_first_comma a b A).
  split; [reflexivity|]. intro B.
  rewrite (replace_no_comma (a ++ String "." b)); [reflexivity|].
  rewrite no_comma_app, A. exact B.
Qed.

Lemma X1_witness :
  toNumber "70,55" = lit 70.55 /\ toNumber "70,55" = toNumber "70.55".
Proof.
  destruct (X1_first_comma_is_point "70" "55" eq_refl) as (P & E).
  cbn [append] in P, E.
  split; [rewrite P; vm_compute; reflexivity | apply E; reflexivity].
Defined.

(** White space before the number is skipped. *)
Lemma trim_start_white (w v : string) :
  Numeral.all_white w = true -> Parse.trim_start (w ++ v) = Parse.trim_start v.
Proof.
  unfold Numeral.all_white. induction w as [|c r IH]; [reflexivity|].
  cbn [list_ascii_of_string forallb append Parse.trim_start]. intro H.
  apply andb_true_iff in H. destruct H as [C R]. rewrite C. now apply IH.
Qed.

Lemma white_no_comma (w : string) :
  Numeral.all_white w = true -> Numeral.no_comma w = true.
Proof.
  unfold Numeral.all_white, Numeral.no_comma.
  induction w as [|c r IH]; [reflexivity|].
  cbn [list_ascii_of_string forallb]. intro H.
  apply andb_true_iff in H. destruct H as [C R]. rewrite (IH R), andb_true_r.
  destruct (Ascii.eqb_spec c ","); [subst c; discriminate C | reflexivity].
Qed.

Lemma replace_app_no_comma (a b : string) :
  Numeral.no_comma a = true ->
  replace "," "." (a ++ b) = (a ++ replace "," "." b)%string.
Proof.
  unfold Numeral.no_comma. induction a as [|c r IH]; [reflexivity|].
  cbn [list_ascii_of_string forallb replace append]. intro H.
  apply andb_true_iff in H. destruct H as [C R].
  apply negb_true_iff in C. rewrite C. now rewrite IH.
Qed.

(** X2: white space typed before the number changes nothing. *)
Theorem X2_leading_white_space_ignored :
  forall w v : string,
    Numeral.all_white w = true ->
    parseFloat (w ++ v) = parseFloat v /\ toNumber (w ++ v) = toNumber v.
Proof.
  intros w v W.
  assert (P : forall u, parseFloat (w ++ u) = parseFloat u).
  { intro u. unfold parseFloat. now rewrite trim_start_white. }
  split; [apply P|].
  unfold toNumber. rewrite (replace_app_no_comma w v (white_no_comma w W)).
  now rewrite P.
Qed.

Lemma X2_witness :
  parseFloat "  42" = parseFloat "42" /\ toNumber "  42" = toNumber "42".
Proof.
  apply (X2_leading_white_space_ignored "  " "42"). reflexivity.
Defined.

(** *** The shape of the parser's case analyses *)

Lemma parseFloat_cases (v : string) :
  parseFloat v
  = match Parse.trim_start v with
    | EmptyString => Parse.unsigned_literal false EmptyString
    | String c r =>
        if Ascii.eqb c "+" then Parse.unsigned_literal false r
        else if Ascii.eqb c "-" then Parse.unsigned_literal true r
        else Parse.unsigned_literal false (String c r)
    end.
Proof.
  unfold parseFloat. destruct (Parse.trim_start v) as [|c r]; [reflexivity|].
  destruct c as [[] [] [] [] [] [] [] []]; reflexivity.
Qed.

Lemma unsigned_literal_cases (neg : bool) (v : string) :
  Parse.unsigned_literal neg v
  = if String.prefix "Infinity" v
    then (if neg then PrimFloat.neg_infinity else PrimFloat.infinity)
    else
      let '(ip, ic, r1) := Parse.digits v 0 0 in
      match r1 with
      | String c r2 =>
          if Ascii.eqb c "." then
            let '(m, tc, r3) := Parse.digits r2 ip ic in
            if (tc =? 0)%Z then PrimFloat.nan
            else F64.of_decimal neg m (Parse.exponent r3 - (tc - ic))
          else
            if (ic =? 0)%Z then PrimFloat.nan
            else F64.of_decimal neg ip (Parse.exponent r1)
      | EmptyString =>
          if (ic =? 0)%Z then PrimFloat.nan
          else F64.of_decimal neg ip (Parse.exponent r1)
      end.
Proof.
  unfold Parse.unsigned_literal. destruct (String.prefix "Infinity" v); [reflexivity|].
  destruct (Parse.digits v 0 0) as [[ip ic] r1].
  destruct r1 as [|c r2]; [reflexivity|].
  destruct c as [[] [] [] [] [] [] [] []]; reflexivity.
Qed.

(** *** Digits *)

Lemma digit_char_facts (d : nat) :
  (d < 10)%nat ->
  Parse.digit_of (Numeral.digit_char d) = Some (Z.of_nat d)
  /\ Parse.is_white (Numeral.digit_char d) = false
  /\ Ascii.eqb (Numeral.digit_char d) "+" = false
  /\ Ascii.eqb (Numeral.digit_char d) "-" = false
  /\ Ascii.eqb (Numeral.digit_char d) "," = false
  /\ Ascii.eqb (Numeral.digit_char d) "." = false
  /\ Ascii.eqb (Numeral.digit_char d) "I" = false.
Proof.
  intro H.
  do 10 (destruct d as [|d]; [repeat split; reflexivity|]).
  exfalso. apply Nat.ltb_lt in H. discriminate H.
Qed.

Lemma digits_text (ds : list nat) (rest : string) (acc cnt : Z) :
  Numeral.all_digits ds = true ->
  Parse.digits (Numeral.text ds ++ rest) acc cnt
  = Parse.digits rest (Numeral.value_from acc ds) (cnt + Z.of_nat (length ds)).
Proof.
  unfold Numeral.all_digits. revert acc cnt.
  induction ds as [|d r IH]; intros acc cnt H.
  - cbn [Numeral.text append Numeral.value_from length Z.of_nat]. now rewrite Z.add_0_r.
  - cbn [forallb] in H. apply andb_true_iff in H. destruct H as [D R].
    apply Nat.ltb_lt in D. destruct (digit_char_facts d D) as (Dg & _).
    cbn [Numeral.text append Parse.digits Numeral.value_from length].
    rewrite Dg, (IH _ _ R). f_equal. rewrite Nat2Z.inj_succ.
    rewrite <- Z.add_1_l, Z.add_assoc. reflexivity.
Qed.

Lemma stops_digit_of (c : ascii) (r : string) :
  Numeral.stops (String c r) = true ->
  Parse.digit_of c = None
  /\ Ascii.eqb c "." = false /\ Ascii.eqb c "," = false
  /\ Ascii.eqb c "e" = false /\ Ascii.eqb c "E" = false.
Proof.
  cbn [Numeral.stops]. unfold Numeral.continues. intro H.
  apply negb_true_iff in H.
  destruct (Parse.digit_of c); [discriminate H|].
  repeat (apply orb_false_iff in H; destruct H as [H ?]). auto.
Qed.

Lemma digits_stop (rest : string) (acc cnt : Z) :
  Numeral.stops rest = true -> Parse.digits rest acc cnt = (acc, cnt, rest).
Proof.
  destruct rest as [|c r]; [reflexivity|]. intro H.
  destruct (stops_digit_of c r H) as (D & _). cbn [Parse.digits]. now rewrite D.
Qed.

Lemma exponent_stop (rest : string) :
  Numeral.stops rest = true -> Parse.exponent rest = 0%Z.
Proof.
  destruct rest as [|c r]; [reflexivity|]. intro H.
  destruct (stops_digit_of c r H) as (_ & _ & _ & E1 & E2).
  cbn [Parse.exponent]. now rewrite E1, E2.
Qed.

Lemma text_no_comma (ds : list nat) :
  Numeral.all_digits ds = true -> Numeral.no_comma (Numeral.text ds) = true.
Proof.
  unfold Numeral.all_digits, Numeral.no_comma. induction ds as [|d r IH]; [reflexivity|].
  cbn [forallb Numeral.text list_ascii_of_string]. intro H.
  apply andb_true_iff in H. destruct H as [D R]. apply Nat.ltb_lt in D.
  destruct (digit_char_facts d D) as (_ & _ & _ & _ & C & _).
  now rewrite C, (IH R).
Qed.

(** A text that begins with a digit is an unsigned literal from its
    first character on. *)
Lemma parseFloat_numeral (d : nat) (ds : list nat) (tail : string) :
  (d < 10)%nat ->
  parseFloat (Numeral.text (d :: ds) ++ tail)
  = let '(ip, ic, r1) := Parse.digits (Numeral.text (d :: ds) ++ tail) 0 0 in
    match r1 with
    | String c r2 =>
        if Ascii.eqb c "." then
          let '(m, tc, r3) := Parse.digits r2 ip ic in
          if (tc =? 0)%Z then PrimFloat.nan
          else F64.of_decimal false m (Parse.exponent r3 - (tc - ic))
        else
          if (ic =? 0)%Z then PrimFloat.nan
          else F64.of_decimal false ip (Parse.exponent r1)
    | EmptyString =>
        if (ic =? 0)%Z then PrimFloat.nan
        else F64.of_decimal false ip (Parse.exponent r1)
    end.
Proof.
  intro D. destruct (digit_char_facts d D) as (_ & W & P & M & _ & _ & I).
  rewrite parseFloat_cases.
  cbn [Numeral.text append Parse.trim_start]. rewrite W, P, M.
  rewrite unsigned_literal_cases.
  replace (String.prefix "Infinity" (String (Numeral.digit_char d) (Numeral.text ds ++ tail)))
    with false; [reflexivity|].
  cbn [String.prefix]. rewrite Ascii.eqb_sym in I.
  destruct (ascii_dec "I" (Numeral.digit_char d)) as [E|E]; [|reflexivity].
  rewrite <- E in I. discriminate I.
Qed.

(** X3: a digit string, with or without a fraction after a point or a
    comma, is read as the binary64 value nearest to the decimal number it
    writes (0 when that is infinite), and whatever follows the number is
    ignored as soon as a character that cannot continue it is met. *)
Theorem X3_numerals_are_read :
  forall (i f : list nat) (rest : string),
    i <> [] ->
    Numeral.all_digits i = true ->
    Numeral.all_digits f = true ->
    Numeral.stops rest = true ->
    parseFloat (Numeral.text i ++ rest) = F64.of_decimal false (Numeral.value i) 0
    /\ parseFloat (Numeral.text i ++ String "." (Numeral.text f ++ rest))
       = F64.of_decimal false (Numeral.value (i ++ f)) (- Z.of_nat (length f))
    /\ toNumber (Numeral.text i ++ String "," (Numeral.text f ++ rest))
       = (let n := F64.of_decimal false (Numeral.value (i ++ f)) (- Z.of_nat (length f)) in
          if Number_isFinite n then n else PrimFloat.zero).
Proof.
  intros i f rest Ne I F R.
  destruct i as [|d ds]; [contradiction|].
  assert (D : (d < 10)%nat).
  { unfold Numeral.all_digits in I. cbn [forallb] in I.
    apply andb_true_iff in I. now apply Nat.ltb_lt. }
  assert (L : (0 + Z.of_nat (length (d :: ds)) =? 0)%Z = false).
  { apply Z.eqb_neq. cbn [length]. rewrite Nat2Z.inj_succ.
    pose proof (Nat2Z.is_nonneg (length ds)) as N. intro E.
    rewrite Z.add_0_l in E. rewrite <- Z.add_1_r in E.
    apply (Z.lt_irrefl 0). rewrite <- E at 2.
    apply Z.lt_le_trans with (0 + 1)%Z; [reflexivity|].
    now apply Z.add_le_mono_r. }
  assert (P : parseFloat (Numeral.text (d :: ds) ++ String "." (Numeral.text f ++ rest))
              = F64.of_decimal false (Numeral.value ((d :: ds) ++ f))
                  (- Z.of_nat (length f))).
  { rewrite (parseFloat_numeral d ds _ D), (digits_text _ _ _ _ I).
    cbn [Parse.digits Parse.digit_of Ascii.eqb] .
    change (Parse.digit_of ".") with (@None Z). cbn iota.
    change (Ascii.eqb "." ".") with true. cbn iota.
    rewrite (digits_text _ _ _ _ F), (digits_stop _ _ _ R), (exponent_stop _ R).
    replace (0 + Z.of_nat (length (d :: ds)) + Z.of_nat (length f) =? 0)%Z with false.
    - unfold Numeral.value. f_equal.
      + clear. generalize 0%Z. induction (d :: ds) as [|x xs IH]; intro a;
          [reflexivity | apply IH].
      + rewrite Z.add_simpl_l. reflexivity.
    - symmetry. apply Z.eqb_neq. apply Z.eqb_neq in L.
      pose proof (Nat2Z.is_nonneg (length f)) as N1.
      pose proof (Nat2Z.is_nonneg (length (d :: ds))) as N2.
      intro E. apply L. rewrite Z.add_0_l in *.
      apply Z.le_antisymm; [|exact N2].
      rewrite <- E. rewrite <- (Z.add_0_r (Z.of_nat (length (d :: ds)))) at 1.
      now apply Z.add_le_mono_l. }
  split; [|split].
  - rewrite (parseFloat_numeral d ds _ D), (digits_text _ _ _ _ I).
    rewrite (digits_stop _ _ _ R), L, (exponent_stop _ R).
    destruct rest as [|c r]; [reflexivity|].
    destruct (stops_digit_of c r R) as (_ & Pt & _). now rewrite Pt.
  - exact P.
  - unfold toNumber.
    rewrite (replace_first_comma _ _ (text_no_comma _ I)), P. reflexivity.
Qed.

Lemma X3_witness :
  parseFloat "70kg" = lit 70
  /\ parseFloat "70.55 cm" = lit 70.55
  /\ toNumber "70,55 cm" = lit 70.55.
Proof.
  destruct (X3_numerals_are_read [7; 0]%nat [] "kg") as (A & _);
    try reflexivity; try discriminate.
  destruct (X3_numerals_are_read [7; 0]%nat [5; 5]%nat " cm") as (_ & B & C);
    try reflexivity; try discriminate.
  cbn [Numeral.text append] in A, B, C.
  change (String (Numeral.digit_char 7) (String (Numeral.digit_char 0) "kg"))
    with "70kg"%string in A.
  split; [rewrite A; vm_compute; reflexivity | split].
  - etransitivity; [exact B | vm_compute; reflexivity].
  - etransitivity; [exact C | vm_compute; reflexivity].
Defined.

(** *** Signs of literals *)

Lemma opp_involutive (x : float) : PrimFloat.opp (PrimFloat.opp x) = x.
Proof.
  apply Prim2SF_inj. rewrite !opp_spec.
  destruct (Prim2SF x) as [s | s | | s m e]; cbn; now rewrite ?negb_involutive.
Qed.

Lemma SF2Prim_opp (x : spec_float) :
  SF2Prim (SFopp x) = PrimFloat.opp (SF2Prim x).
Proof.
  destruct x as [[] | [] | | [] m e]; try reflexivity.
  cbn [SFopp negb SF2Prim]. now rewrite opp_involutive.
Qed.

Lemma binary_round_aux_opp (mx ex : Z) (lx : location) :
  binary_round_aux prec emax true mx ex lx
  = SFopp (binary_round_aux prec emax false mx ex lx).
Proof.
  unfold binary_round_aux.
  destruct (shr_fexp prec emax mx ex lx) as [mrs' e'].
  destruct (shr_fexp prec emax _ e' loc_Exact) as [mrs'' e''].
  destruct (shr_m mrs''); [reflexivity | | reflexivity].
  destruct (Z.leb e'' (emax - prec)); reflexivity.
Qed.

Lemma binary_normalize_opp (z e : Z) :
  z <> 0%Z ->
  binary_normalize prec emax (- z) e false
  = SFopp (binary_normalize prec emax z e false).
Proof.
  destruct z as [|p|p]; [contradiction | |]; intros _;
    cbn [Z.opp binary_normalize]; unfold binary_round;
    destruct (shl_align p e _) as [mz ez]; rewrite binary_round_aux_opp;
    [reflexivity|].
  destruct (binary_round_aux prec emax false (Z.pos mz) ez loc_Exact) as [[]|[]| |[] m' e'];
    reflexivity.
Qed.

Lemma of_decimal_opp (m e : Z) :
  F64.of_decimal true m e = PrimFloat.opp (F64.of_decimal false m e).
Proof.
  unfold F64.of_decimal. destruct m as [|p|p]; [reflexivity | |].
  - destruct (0 <=? e)%Z eqn:E.
    + rewrite <- SF2Prim_opp, <- binary_normalize_opp.
      * cbn [cond_Zopp]. now rewrite Z.mul_opp_l.
      * apply Z.leb_le in E. cbn [cond_Zopp]. intro H.
        apply Z.mul_eq_0 in H. destruct H as [H | H]; [discriminate H|].
        revert H. now apply Z.pow_nonzero.
    + rewrite <- SF2Prim_opp. f_equal. cbn [SFdiv].
      destruct (SFdiv_core_binary prec emax _ 0 _ 0) as [[mz ez] lz].
      apply binary_round_aux_opp.
  - destruct (0 <=? e)%Z eqn:E.
    + rewrite <- SF2Prim_opp, <- binary_normalize_opp.
      * cbn [cond_Zopp]. now rewrite Z.mul_opp_l.
      * apply Z.leb_le in E. cbn [cond_Zopp]. intro H.
        apply Z.mul_eq_0 in H. destruct H as [H | H]; [discriminate H|].
        revert H. now apply Z.pow_nonzero.
    + rewrite <- SF2Prim_opp. f_equal. cbn [SFdiv].
      destruct (SFdiv_core_binary prec emax _ 0 _ 0) as [[mz ez] lz].
      apply binary_round_aux_opp.
Qed.

Lemma unsigned_literal_opp (v : string) :
  Parse.unsigned_literal true v = PrimFloat.opp (Parse.unsigned_literal false v).
Proof.
  rewrite !unsigned_literal_cases.
  destruct (String.prefix "Infinity" v); [reflexivity|].
  destruct (Parse.digits v 0 0) as [[ip ic] r1].
  destruct r1 as [|c r2].
  - destruct (ic =? 0)%Z; [reflexivity | apply of_decimal_opp].
  - destruct (Ascii.eqb c ".").
    + destruct (Parse.digits r2 ip ic) as [[m tc] r3].
      destruct (tc =? 0)%Z; [reflexivity | apply of_decimal_opp].
    + destruct (ic =? 0)%Z; [reflexivity | apply of_decimal_opp].
Qed.

Lemma is_finite_opp (x : float) :
  PrimFloat.is_finite (PrimFloat.opp x) = PrimFloat.is_finite x.
Proof.
  unfold PrimFloat.is_finite, PrimFloat.is_nan, PrimFloat.is_infinity.
  rewrite !FloatAxioms.eqb_spec, !abs_spec, !opp_spec.
  destruct (Prim2SF x) as [s | s | | s m e]; try destruct s; cbn;
    rewrite ?Z.compare_refl, ?Pos.compare_cont_refl; reflexivity.
Qed.

Lemma unsigned_start_replace (v : string) :
  Numeral.unsigned_start v = true ->
  Numeral.unsigned_start (replace "," "." v) = true.
Proof.
  destruct v as [|c r]; [reflexivity|]. cbn [replace Numeral.unsigned_start].
  destruct (Ascii.eqb c ","); [reflexivity | trivial].
Qed.

Lemma parseFloat_unsigned (v : string) :
  Numeral.unsigned_start v = true ->
  parseFloat v = Parse.unsigned_literal false v.
Proof.
  intro U. rewrite parseFloat_cases. destruct v as [|c r]; [reflexivity|].
  cbn [Numeral.unsigned_start] in U. apply negb_true_iff in U.
  apply orb_false_iff in U. destruct U as [U M].
  apply orb_false_iff in U. destruct U as [W P].
  cbn [Parse.trim_start]. now rewrite W, P, M.
Qed.

(** X4: a minus sign typed before an unsigned text negates what is read,
    and a plus sign changes nothing; for [toNumber] the two results are
    the same number (where the text reads as nothing, both are zero). *)
Theorem X4_sign_symmetry :
  forall v : string,
    Numeral.unsigned_start v = true ->
    parseFloat (String "-" v) = PrimFloat.opp (parseFloat v)
    /\ parseFloat (String "+" v) = parseFloat v
    /\ F64.same (toNumber (String "-" v)) (PrimFloat.opp (toNumber v)).
Proof.
  intros v U.
  assert (M : forall u, Numeral.unsigned_start u = true ->
                        parseFloat (String "-" u) = PrimFloat.opp (parseFloat u)).
  { intros u Uu. rewrite (parseFloat_unsigned u Uu), <- unsigned_literal_opp.
    reflexivity. }
  split; [now apply M | split].
  - rewrite (parseFloat_unsigned v U). reflexivity.
  - unfold toNumber. cbn [replace]. change (Ascii.eqb "-" ",") with false. cbn iota.
    rewrite (M _ (unsigned_start_replace v U)).
    unfold Number_isFinite. rewrite is_finite_opp.
    destruct (PrimFloat.is_finite (parseFloat (replace "," "." v))).
    + left. reflexivity.
    + right. reflexivity.
Qed.

Lemma X4_witness :
  parseFloat "-70.5" = PrimFloat.opp (parseFloat "70.5")
  /\ parseFloat "+70.5" = parseFloat "70.5"
  /\ F64.same (toNumber "-70.5") (PrimFloat.opp (toNumber "70.5")).
Proof.
  apply (X4_sign_symmetry "70.5"). reflexivity.
Defined.

(** ** The order of binary64 and [clamp] *)

Lemma SFcompare_antisym (x y : spec_float) :
  SFcompare y x = option_map CompOpp (SFcompare x y).
Proof.
  destruct x as [sx | sx | | sx mx ex], y as [sy | sy | | sy my ey];
    try destruct sx; try destruct sy; try reflexivity; cbn;
    rewrite (Z.compare_antisym ex ey); destruct (ex ?= ey)%Z; cbn;
    rewrite ?(Pos.compare_cont_antisym mx my Eq); reflexivity.
Qed.

Lemma is_nan_spec (x : float) :
  PrimFloat.is_nan x = false <-> SFcompare (Prim2SF x) (Prim2SF x) = Some Eq.
Proof.
  unfold PrimFloat.is_nan. rewrite negb_false_iff, FloatAxioms.eqb_spec.
  unfold SFeqb. destruct (SFcompare (Prim2SF x) (Prim2SF x)) as [[]|];
    split; congruence.
Qed.

Lemma compare_some (x y : float) :
  PrimFloat.is_nan x = false -> PrimFloat.is_nan y = false ->
  exists c, SFcompare (Prim2SF x) (Prim2SF y) = Some c.
Proof.
  rewrite !is_nan_spec.
  destruct (Prim2SF x) as [sx | sx | | sx mx ex], (Prim2SF y) as [sy | sy | | sy my ey];
    cbn; intros X Y; try discriminate; eauto.
Qed.

Lemma ltb_not_nan (x y : float) :
  PrimFloat.ltb x y = true ->
  PrimFloat.is_nan x = false /\ PrimFloat.is_nan y = false.
Proof.
  rewrite ltb_spec, !is_nan_spec. unfold SFltb.
  destruct (Prim2SF x) as [sx | sx | | sx mx ex], (Prim2SF y) as [sy | sy | | sy my ey];
    try destruct sx; try destruct sy; cbn; try discriminate; intros _;
    rewrite ?Z.compare_refl, ?Pos.compare_cont_refl; split; reflexivity.
Qed.

Lemma ltb_leb (x y : float) : PrimFloat.ltb x y = true -> PrimFloat.leb x y = true.
Proof.
  rewrite ltb_spec, leb_spec. unfold SFltb, SFleb.
  now destruct (SFcompare (Prim2SF x) (Prim2SF y)) as [[]|].
Qed.

Lemma leb_refl (x : float) : PrimFloat.is_nan x = false -> PrimFloat.leb x x = true.
Proof. rewrite is_nan_spec, leb_spec. unfold SFleb. now intros ->. Qed.

(** Two numbers are ordered one way or the other. *)
Lemma leb_total (x y : float) :
  PrimFloat.is_nan x = false -> PrimFloat.is_nan y = false ->
  PrimFloat.ltb x y = false -> PrimFloat.leb y x = true.
Proof.
  intros X Y. destruct (compare_some x y X Y) as [c C].
  rewrite ltb_spec, leb_spec. unfold SFltb, SFleb.
  rewrite (SFcompare_antisym (Prim2SF x) (Prim2SF y)), C.
  now destruct c.
Qed.

Lemma ltb_asym (x y : float) : PrimFloat.ltb x y = true -> PrimFloat.ltb y x = false.
Proof.
  rewrite !ltb_spec. unfold SFltb.
  rewrite (SFcompare_antisym (Prim2SF x) (Prim2SF y)).
  now destruct (SFcompare (Prim2SF x) (Prim2SF y)) as [[]|].
Qed.

Lemma leb_not_ltb (x y : float) : PrimFloat.leb x y = true -> PrimFloat.ltb y x = false.
Proof.
  rewrite ltb_spec, leb_spec. unfold SFltb, SFleb.
  rewrite (SFcompare_antisym (Prim2SF x) (Prim2SF y)).
  now destruct (SFcompare (Prim2SF x) (Prim2SF y)) as [[]|].
Qed.

Lemma is_nan_true (x : float) : PrimFloat.is_nan x = true -> x = PrimFloat.nan.
Proof.
  unfold PrimFloat.is_nan. rewrite negb_true_iff, FloatAxioms.eqb_spec.
  intro H. rewrite <- (SF2Prim_Prim2SF x). unfold SFeqb in H.
  destruct (Prim2SF x) as [s | s | | s m e]; try destruct s; cbn in H;
    rewrite ?Z.compare_refl, ?Pos.compare_cont_refl in H;
    try discriminate H; reflexivity.
Qed.

(** [Math.max(a, b)] is one of its arguments and not below either;
    [Math.min(a, b)] is one of its arguments and not above either. *)
Lemma max_spec (a b : float) :
  PrimFloat.is_nan a = false -> PrimFloat.is_nan b = false ->
  (F64Order.max a b = a \/ F64Order.max a b = b)
  /\ PrimFloat.leb a (F64Order.max a b) = true
  /\ PrimFloat.leb b (F64Order.max a b) = true.
Proof.
  intros A B. unfold F64Order.max. rewrite A, B. cbn [orb].
  destruct (PrimFloat.ltb b a) eqn:L1.
  { auto using leb_refl, ltb_leb. }
  destruct (PrimFloat.ltb a b) eqn:L2.
  { auto using leb_refl, ltb_leb. }
  destruct (PrimFloat.is_zero a && PrimFloat.get_sign a)%bool;
    auto 6 using leb_refl, leb_total.
Qed.

Lemma min_spec (a b : float) :
  PrimFloat.is_nan a = false -> PrimFloat.is_nan b = false ->
  (F64Order.min a b = a \/ F64Order.min a b = b)
  /\ PrimFloat.leb (F64Order.min a b) a = true
  /\ PrimFloat.leb (F64Order.min a b) b = true.
Proof.
  intros A B. unfold F64Order.min. rewrite A, B. cbn [orb].
  destruct (PrimFloat.ltb a b) eqn:L1.
  { auto using leb_refl, ltb_leb. }
  destruct (PrimFloat.ltb b a) eqn:L2.
  { auto using leb_refl, ltb_leb. }
  destruct (PrimFloat.is_zero a && negb (PrimFloat.get_sign a))%bool;
    auto 6 using leb_refl, leb_total.
Qed.

(** X5: for numbers [min <= max], [clamp(n, min, max)] is [n], [min] or
    [max], and lies between [min] and [max]. *)
Theorem X5_clamp_within_bounds :
  forall n lo hi : float,
    PrimFloat.is_nan n = false ->
    PrimFloat.leb lo hi = true ->
    (clamp n lo hi = n \/ clamp n lo hi = lo \/ clamp n lo hi = hi)
    /\ PrimFloat.leb lo (clamp n lo hi) = true
    /\ PrimFloat.leb (clamp n lo hi) hi = true.
Proof.
  intros n lo hi N H.
  assert (Lo : PrimFloat.is_nan lo = false /\ PrimFloat.is_nan hi = false).
  { revert H. rewrite leb_spec, !is_nan_spec. unfold SFleb.
    destruct (Prim2SF lo) as [sx | sx | | sx mx ex], (Prim2SF hi) as [sy | sy | | sy my ey];
      try destruct sx; try destruct sy; cbn; try discriminate; intros _;
      rewrite ?Z.compare_refl, ?Pos.compare_cont_refl; split; reflexivity. }
  destruct Lo as [Lo Hi].
  unfold clamp. cbn [Math_max Math_min float_minmax].
  destruct (max_spec n lo N Lo) as (Mc & Mn & Ml).
  assert (M : PrimFloat.is_nan (F64Order.max n lo) = false)
    by (destruct Mc as [-> | ->]; assumption).
  destruct (min_spec (F64Order.max n lo) hi M Hi) as (Rc & Rm & Rh).
  split; [|split].
  - destruct Rc as [-> | ->]; [destruct Mc as [-> | ->]|]; auto.
  - destruct Rc as [-> | ->]; assumption.
  - exact Rh.
Qed.

Lemma X5_witness :
  (clamp (num := float) (lit 250) (lit 0) (lit 100) = lit 250
   \/ clamp (num := float) (lit 250) (lit 0) (lit 100) = lit 0
   \/ clamp (num := float) (lit 250) (lit 0) (lit 100) = lit 100)
  /\ PrimFloat.leb (lit 0) (clamp (lit 250) (lit 0) (lit 100)) = true
  /\ PrimFloat.leb (clamp (lit 250) (lit 0) (lit 100)) (lit 100) = true.
Proof.
  apply (X5_clamp_within_bounds (lit 250) (lit 0) (lit 100)); reflexivity.
Defined.

(** X6: [clamp] leaves a number strictly between the bounds as it is,
    and gives NaN as soon as one of its three arguments is NaN. *)
Theorem X6_clamp_interior_and_NaN :
  forall n lo hi : float,
    (PrimFloat.ltb lo n = true -> PrimFloat.ltb n hi = true -> clamp n lo hi = n)
    /\ (PrimFloat.is_nan n = true \/ PrimFloat.is_nan lo = true
        \/ PrimFloat.is_nan hi = true ->
        clamp n lo hi = PrimFloat.nan).
Proof.
  intros n lo hi. unfold clamp. cbn [Math_max Math_min float_minmax]. split.
  - intros L H.
    destruct (ltb_not_nan _ _ L) as [Lo N]. destruct (ltb_not_nan _ _ H) as [_ Hi].
    unfold F64Order.max. rewrite N, Lo, L. cbn [orb].
    unfold F64Order.min. now rewrite N, Hi, H.
  - assert (Mn : forall b, F64Order.min PrimFloat.nan b = PrimFloat.nan) by reflexivity.
    intros [N | [N | N]].
    + rewrite (is_nan_true n N). reflexivity.
    + unfold F64Order.max at 1. rewrite N, orb_true_r. apply Mn.
    + unfold F64Order.min. rewrite N, orb_true_r. reflexivity.
Qed.

Lemma X6_witness :
  clamp (num := float) (lit 42) (lit 0) (lit 100) = lit 42
  /\ clamp PrimFloat.nan (lit 0) (lit 100) = PrimFloat.nan.
Proof.
  destruct (X6_clamp_interior_and_NaN (lit 42) (lit 0) (lit 100)) as (I & _).
  destruct (X6_clamp_interior_and_NaN PrimFloat.nan (lit 0) (lit 100)) as (_ & N).
  split; [apply I; reflexivity | apply N; left; reflexivity].
Defined.

(** *** Transitivity *)

Lemma lex_cases (e1 e2 : Z) (m1 m2 : positive) :
  match (e1 ?= e2)%Z with
  | Eq => Pos.compare_cont Eq m1 m2
  | Lt => Lt
  | Gt => Gt
  end
  = (if (e1 <? e2)%Z then Lt
     else if (e2 <? e1)%Z then Gt
     else if (m1 <? m2)%positive then Lt
     else if (m2 <? m1)%positive then Gt else Eq).
Proof.
  change (Pos.compare_cont Eq m1 m2) with (m1 ?= m2)%positive.
  destruct (Z.compare_spec e1 e2), (Pos.compare_spec m1 m2);
    repeat match goal with
    | |- context [(?a <? ?b)%Z] => destruct (Z.ltb_spec a b); try lia
    | |- context [(?a <? ?b)%positive] => destruct (Pos.ltb_spec a b); try lia
    end; reflexivity.
Qed.

Lemma lex_cases_neg (e1 e2 : Z) (m1 m2 : positive) :
  match (e1 ?= e2)%Z with
  | Eq => CompOpp (Pos.compare_cont Eq m1 m2)
  | Lt => Gt
  | Gt => Lt
  end
  = (if (e1 <? e2)%Z then Gt
     else if (e2 <? e1)%Z then Lt
     else if (m1 <? m2)%positive then Gt
     else if (m2 <? m1)%positive then Lt else Eq).
Proof.
  change (Pos.compare_cont Eq m1 m2) with (m1 ?= m2)%positive.
  destruct (Z.compare_spec e1 e2), (Pos.compare_spec m1 m2);
    repeat match goal with
    | |- context [(?a <? ?b)%Z] => destruct (Z.ltb_spec a b); try lia
    | |- context [(?a <? ?b)%positive] => destruct (Pos.ltb_spec a b); try lia
    end; reflexivity.
Qed.

Lemma SFltb_leb_trans (x y z : spec_float) :
  SFltb x y = true -> SFleb y z = true -> SFltb x z = true.
Proof.
  unfold SFltb, SFleb.
  destruct x as [sx | sx | | sx mx ex], y as [sy | sy | | sy my ey],
           z as [sz | sz | | sz mz ez];
    try destruct sx; try destruct sy; try destruct sz; cbn;
    try (intros; discriminate); try reflexivity;
    rewrite ?lex_cases, ?lex_cases_neg;
    repeat match goal with
    | |- context [(?a <? ?b)%Z] => destruct (Z.ltb_spec a b)
    | |- context [(?a <? ?b)%positive] => destruct (Pos.ltb_spec a b)
    end; cbn; intros; try discriminate; try reflexivity; try lia.
Qed.

Lemma SFleb_ltb_trans (x y z : spec_float) :
  SFleb x y = true -> SFltb y z = true -> SFltb x z = true.
Proof.
  unfold SFltb, SFleb.
  destruct x as [sx | sx | | sx mx ex], y as [sy | sy | | sy my ey],
           z as [sz | sz | | sz mz ez];
    try destruct sx; try destruct sy; try destruct sz; cbn;
    try (intros; discriminate); try reflexivity;
    rewrite ?lex_cases, ?lex_cases_neg;
    repeat match goal with
    | |- context [(?a <? ?b)%Z] => destruct (Z.ltb_spec a b)
    | |- context [(?a <? ?b)%positive] => destruct (Pos.ltb_spec a b)
    end; cbn; intros; try discriminate; try reflexivity; try lia.
Qed.

Lemma ltb_leb_trans (x y z : float) :
  PrimFloat.ltb x y = true -> PrimFloat.leb y z = true -> PrimFloat.ltb x z = true.
Proof. rewrite !ltb_spec, leb_spec. apply SFltb_leb_trans. Qed.

Lemma leb_ltb_trans (x y z : float) :
  PrimFloat.leb x y = true -> PrimFloat.ltb y z = true -> PrimFloat.ltb x z = true.
Proof. rewrite !ltb_spec, leb_spec. apply SFleb_ltb_trans. Qed.

Lemma leb_not_nan (x y : float) :
  PrimFloat.leb x y = true ->
  PrimFloat.is_nan x = false /\ PrimFloat.is_nan y = false.
Proof.
  rewrite leb_spec, !is_nan_spec. unfold SFleb.
  destruct (Prim2SF x) as [sx | sx | | sx mx ex], (Prim2SF y) as [sy | sy | | sy my ey];
    try destruct sx; try destruct sy; cbn; try discriminate; intros _;
    rewrite ?Z.compare_refl, ?Pos.compare_cont_refl; split; reflexivity.
Qed.

(** Numbers that are not ordered strictly either way are equal. *)
Lemma not_ltb_same (x y : float) :
  PrimFloat.is_nan x = false -> PrimFloat.is_nan y = false ->
  PrimFloat.ltb x y = false -> PrimFloat.ltb y x = false -> F64.same x y.
Proof.
  intros X Y L1 L2. destruct (compare_some x y X Y) as [c C]. right.
  revert L1 L2. rewrite !ltb_spec, FloatAxioms.eqb_spec. unfold SFltb, SFeqb.
  rewrite (SFcompare_antisym (Prim2SF x) (Prim2SF y)), C.
  now destruct c.
Qed.

Lemma same_refl (x : float) : F64.same x x.
Proof. now left. Qed.

Lemma same_sym (x y : float) : F64.same x y -> F64.same y x.
Proof.
  intros [-> | E]; [now left | right].
  revert E. rewrite !FloatAxioms.eqb_spec. unfold SFeqb.
  rewrite (SFcompare_antisym (Prim2SF x) (Prim2SF y)).
  now destruct (SFcompare (Prim2SF x) (Prim2SF y)) as [[]|].
Qed.

Lemma leb_trans (x y z : float) :
  PrimFloat.leb x y = true -> PrimFloat.leb y z = true -> PrimFloat.leb x z = true.
Proof.
  intros XY YZ.
  destruct (leb_not_nan _ _ XY) as [X _]. destruct (leb_not_nan _ _ YZ) as [_ Z].
  apply leb_total; [exact Z | exact X |].
  destruct (PrimFloat.ltb z x) eqn:C; [|reflexivity].
  pose proof (ltb_leb_trans z x y C XY) as T.
  rewrite (leb_not_ltb _ _ YZ) in T. discriminate T.
Qed.

Lemma leb_antisym (x y : float) :
  PrimFloat.leb x y = true -> PrimFloat.leb y x = true -> F64.same x y.
Proof.
  intros XY YX. destruct (leb_not_nan _ _ XY) as [X Y].
  apply not_ltb_same; auto using leb_not_ltb.
Qed.

(** X7: [clamp] saturates: a number at or below [min] gives [min], a
    number at or above [max] gives [max] (as numbers: a zero may come
    back with the other sign), and with the bounds the wrong way round,
    [max < min], every number gives [max]. *)
Theorem X7_clamp_saturates :
  forall n lo hi : float,
    (PrimFloat.leb n lo = true -> PrimFloat.leb lo hi = true ->
     F64.same (clamp n lo hi) lo)
    /\ (PrimFloat.leb hi n = true -> PrimFloat.leb lo hi = true ->
        F64.same (clamp n lo hi) hi)
    /\ (PrimFloat.is_nan n = false -> PrimFloat.ltb hi lo = true ->
        clamp n lo hi = hi).
Proof.
  intros n lo hi. unfold clamp. cbn [Math_max Math_min float_minmax].
  split; [|split].
  - intros NL LH.
    destruct (leb_not_nan _ _ NL) as [N Lo]. destruct (leb_not_nan _ _ LH) as [_ Hi].
    destruct (max_spec n lo N Lo) as (Mc & Mn & Ml).
    assert (M : PrimFloat.is_nan (F64Order.max n lo) = false)
      by (destruct Mc as [-> | ->]; assumption).
    assert (ML : PrimFloat.leb (F64Order.max n lo) lo = true)
      by (destruct Mc as [-> | ->]; auto using leb_refl).
    destruct (min_spec (F64Order.max n lo) hi M Hi) as (Rc & Rm & Rh).
    apply leb_antisym.
    + now apply leb_trans with (F64Order.max n lo).
    + destruct Rc as [-> | ->]; assumption.
  - intros HN LH.
    destruct (leb_not_nan _ _ HN) as [Hi N]. destruct (leb_not_nan _ _ LH) as [Lo _].
    destruct (max_spec n lo N Lo) as (Mc & Mn & Ml).
    assert (M : PrimFloat.is_nan (F64Order.max n lo) = false)
      by (destruct Mc as [-> | ->]; assumption).
    destruct (min_spec (F64Order.max n lo) hi M Hi) as (Rc & Rm & Rh).
    apply leb_antisym; [exact Rh|].
    destruct Rc as [-> | ->]; [|now apply leb_refl].
    now apply leb_trans with n.
  - intros N HL. destruct (ltb_not_nan _ _ HL) as [Hi Lo].
    destruct (max_spec n lo N Lo) as (Mc & Mn & Ml).
    assert (M : PrimFloat.is_nan (F64Order.max n lo) = false)
      by (destruct Mc as [-> | ->]; assumption).
    pose proof (ltb_leb_trans _ _ _ HL Ml) as T.
    unfold F64Order.min. now rewrite M, Hi, (ltb_asym _ _ T), T.
Qed.

Lemma X7_witness :
  F64.same (clamp (num := float) (lit (-5)) (lit 0) (lit 100)) (lit 0)
  /\ F64.same (clamp (num := float) (lit 250) (lit 0) (lit 100)) (lit 100)
  /\ clamp (num := float) (lit 50) (lit 100) (lit 0) = lit 0.
Proof.
  destruct (X7_clamp_saturates (lit (-5)) (lit 0) (lit 100)) as (A & _ & _).
  destruct (X7_clamp_saturates (lit 250) (lit 0) (lit 100)) as (_ & B & _).
  destruct (X7_clamp_saturates (lit 50) (lit 100) (lit 0)) as (_ & _ & C).
  split; [apply A; reflexivity | split; [apply B; reflexivity | apply C; reflexivity]].
Defined.

(** The zeros: of +0 and -0, [Math.max] gives +0 and [Math.min] gives -0,
    in either order. *)
Example min_max_of_zeros :
  map (fun p => (F64Order.max (fst p) (snd p), F64Order.min (fst p) (snd p)))
      [(PrimFloat.zero, PrimFloat.neg_zero); (PrimFloat.neg_zero, PrimFloat.zero);
       (PrimFloat.neg_zero, PrimFloat.neg_zero); (lit 1, PrimFloat.nan);
       (PrimFloat.neg_infinity, lit 3)]
  = [(PrimFloat.zero, PrimFloat.neg_zero); (PrimFloat.zero, PrimFloat.neg_zero);
     (PrimFloat.neg_zero, PrimFloat.neg_zero); (PrimFloat.nan, PrimFloat.nan);
     (lit 3, PrimFloat.neg_infinity)].
Proof. vm_compute. reflexivity. Qed.

(** ** What the results panel shows *)

(** X8: the calories figure, [Math.max(0, r.calories)], is never below
    zero: it is the engine's calories when these are zero or more, 0 when
    they are negative, and NaN when they are NaN. *)
Theorem X8_calories_shown_not_negative :
  forall s : CaloriesCalculator.State float,
    F64.not_negative (ResultsPanel.caloriesShown s) = true
    /\ (PrimFloat.leb PrimFloat.zero (Engine.calories (CaloriesCalculator.r s)) = true ->
        F64.same (ResultsPanel.caloriesShown s) (Engine.calories (CaloriesCalculator.r s)))
    /\ (PrimFloat.ltb (Engine.calories (CaloriesCalculator.r s)) PrimFloat.zero = true ->
        ResultsPanel.caloriesShown s = PrimFloat.zero)
    /\ (PrimFloat.is_nan (Engine.calories (CaloriesCalculator.r s)) = true ->
        ResultsPanel.caloriesShown s = PrimFloat.nan).
Proof.
  intro s. unfold ResultsPanel.caloriesShown. cbn [Math_max float_minmax].
  change (lit 0) with PrimFloat.zero.
  set (c := Engine.calories (CaloriesCalculator.r s)).
  assert (Z : PrimFloat.is_nan PrimFloat.zero = false) by reflexivity.
  split; [|split; [|split]].
  - destruct (PrimFloat.is_nan c) eqn:N.
    + unfold F64Order.max. rewrite N, orb_true_r. reflexivity.
    + destruct (max_spec PrimFloat.zero c Z N) as (_ & L & _).
      unfold F64.not_negative. now rewrite (leb_not_ltb _ _ L).
  - intro P. destruct (leb_not_nan _ _ P) as [_ N].
    destruct (max_spec PrimFloat.zero c Z N) as (Mc & L & Lc).
    apply leb_antisym; [|exact Lc].
    destruct Mc as [-> | ->]; [exact P | now apply leb_refl].
  - intro L. destruct (ltb_not_nan _ _ L) as [N _].
    unfold F64Order.max. now rewrite N, L.
  - intro N. unfold F64Order.max. now rewrite N, orb_true_r.
Qed.

Lemma X8_witness :
  F64.same
    (ResultsPanel.caloriesShown (CaloriesCalculator.initial (num := float)))
    (Engine.calories (CaloriesCalculator.r CaloriesCalculator.initial))
  /\ ResultsPanel.caloriesShown
       (CaloriesCalculator.setWeight (lit (-70)) CaloriesCalculator.initial)
     = PrimFloat.zero
  /\ ResultsPanel.caloriesShown Edge.zero_height = PrimFloat.nan.
Proof.
  destruct (X8_calories_shown_not_negative CaloriesCalculator.initial) as (_ & A & _).
  destruct (X8_calories_shown_not_negative
              (CaloriesCalculator.setWeight (lit (-70)) CaloriesCalculator.initial))
    as (_ & _ & B & _).
  destruct (X8_calories_shown_not_negative Edge.zero_height) as (_ & _ & _ & C).
  split; [apply A | split; [apply B | apply C]]; vm_compute; reflexivity.
Defined.

(** ** Signs of the engine's outputs *)

(** X9: on binary64, for a step count, custom stride, height and weight
    that are not below zero, none of the nine outputs of the engine is
    below zero (each is a positive number, a zero or NaN). *)
Theorem X9_outputs_not_negative :
  forall a : Engine.Args float,
    F64.not_negative (Engine.steps a) = true ->
    F64.not_negative (Engine.customStrideCm a) = true ->
    F64.not_negative (Engine.height a) = true ->
    F64.not_negative (Engine.weight a) = true ->
    forallb F64.not_negative (Engine.outputs (Engine.useWalkingCalc a)) = true.
Proof.
  intros a S C H W.
  assert (L : forall q, PrimFloat.ltb PrimFloat.zero (lit q) = true ->
                        F64.sf_positive (Prim2SF (lit q)))
    by (intros q Lq; now apply positive_spec).
  assert (P : forall q, PrimFloat.ltb PrimFloat.zero (lit q) = true ->
                        F64.not_negative (lit q) = true)
    by (intros q Lq; now apply positive_not_negative, L).
  assert (Me : F64.not_negative (Pace.mets (PACE (Engine.pace a))) = true)
    by (destruct (Engine.pace a); reflexivity).
  assert (Mp : F64.not_negative (Pace.mph (PACE (Engine.pace a))) = true)
    by (destruct (Engine.pace a); reflexivity).
  pose proof (calories_not_negative_binary64 PACE a S C H W Me) as Ca.
  unfold Engine.useWalkingCalc.
  assert (Hc : F64.not_negative (Engine.heightCm a) = true).
  { unfold Engine.heightCm. destruct (Engine.heightUnit a); [exact H|].
    apply mul_not_negative; [exact H | now apply P]. }
  assert (Sa : F64.not_negative (Engine.strideAuto (Engine.walkingCalc PACE a)) = true).
  { apply mul_not_negative; [exact Hc|].
    unfold STRIDE_FACTORS. destruct (Engine.sex a); now apply P. }
  assert (St : F64.not_negative (Engine.strideCm (Engine.walkingCalc PACE a)) = true).
  { cbn [Engine.walkingCalc Engine.strideCm Engine.strideAuto] in *.
    destruct (Engine.useCustomStride a); [now apply or_not_negative | exact Sa]. }
  assert (Dk : F64.not_negative (Engine.distanceKm (Engine.walkingCalc PACE a)) = true).
  { cbn [Engine.walkingCalc Engine.distanceKm Engine.strideCm] in *.
    apply div_not_negative; [|now apply L].
    apply mul_not_negative.
    - apply or_not_negative; [exact S | reflexivity].
    - apply div_not_negative; [exact St | now apply L]. }
  assert (Dm : F64.not_negative (Engine.distanceMi (Engine.walkingCalc PACE a)) = true).
  { cbn [Engine.walkingCalc Engine.distanceMi Engine.distanceKm] in *.
    apply mul_not_negative; [exact Dk | now apply P]. }
  assert (Ho : F64.not_negative (Engine.hours (Engine.walkingCalc PACE a)) = true).
  { cbn [Engine.walkingCalc Engine.hours Engine.distanceMi] in *.
    destruct (Pace.mph (PACE (Engine.pace a)) >? lit 0)%js eqn:G; [|reflexivity].
    apply div_not_negative; [exact Dm | now apply positive_spec]. }
  assert (Mi : F64.not_negative (Engine.minutes (Engine.walkingCalc PACE a)) = true).
  { cbn [Engine.walkingCalc Engine.minutes Engine.hours] in *.
    apply mul_not_negative; [exact Ho | now apply P]. }
  assert (Cd : F64.not_negative (Engine.cadence (Engine.walkingCalc PACE a)) = true).
  { cbn [Engine.walkingCalc Engine.cadence Engine.minutes] in *.
    match goal with
    | |- context [if ?g then _ else _] => destruct g eqn:G; [|reflexivity]
    end.
    apply div_not_negative; [exact S | now apply positive_spec]. }
  unfold Engine.outputs. cbn [forallb].
  rewrite Sa, St, Dk, Dm, Mi, Ho, Ca, Cd. cbn [andb Engine.walkingCalc Engine.mph].
  now rewrite Mp.
Qed.

Lemma X9_witness :
  forallb F64.not_negative (Engine.outputs (Engine.useWalkingCalc Scenario.brisk_5000))
  = true.
Proof.
  apply (X9_outputs_not_negative Scenario.brisk_5000); reflexivity.
Defined.

(** ** Height zero *)

Lemma positive_over_zero (x : float) :
  PrimFloat.ltb PrimFloat.zero x = true ->
  PrimFloat.div x PrimFloat.zero = PrimFloat.infinity.
Proof.
  intro P. apply Prim2SF_inj. rewrite div_spec, Prim2SF_zero.
  revert P. rewrite ltb_spec, Prim2SF_zero.
  destruct (Prim2SF x) as [s | s | | s m e]; try destruct s; cbn;
    try discriminate; reflexivity.
Qed.

Lemma mul_nan_r (x : float) : PrimFloat.mul x PrimFloat.nan = PrimFloat.nan.
Proof.
  apply Prim2SF_inj. rewrite mul_spec.
  change (Prim2SF PrimFloat.nan) with S754_nan.
  now destruct (Prim2SF x).
Qed.

(** X10: with the stride switch off and height 0, the distance and time
    modes divide a positive distance by a zero stride: the derived step
    count is +Infinity, and the engine turns it into NaN for the distance,
    the duration and the calories, and into 0 for the cadence. *)
Theorem X10_zero_height_gives_NaN :
  forall s : CaloriesCalculator.State float,
    CaloriesCalculator.inputMode s <> ModeSteps ->
    CaloriesCalculator.useCustomStride s = false ->
    CaloriesCalculator.height s = PrimFloat.zero ->
    PrimFloat.ltb PrimFloat.zero (CaloriesCalculator.km s * lit 1000)%js = true ->
    CaloriesCalculator.calcSteps s = PrimFloat.infinity
    /\ Engine.distanceKm (CaloriesCalculator.r s) = PrimFloat.nan
    /\ Engine.distanceMi (CaloriesCalculator.r s) = PrimFloat.nan
    /\ Engine.minutes (CaloriesCalculator.r s) = PrimFloat.nan
    /\ Engine.calories (CaloriesCalculator.r s) = PrimFloat.nan
    /\ Engine.cadence (CaloriesCalculator.r s) = PrimFloat.zero.
Proof.
  intros s M U H K.
  assert (St : (CaloriesCalculator.calcStride s / lit 100)%js = PrimFloat.zero).
  { unfold CaloriesCalculator.calcStride. rewrite U, H.
    destruct (CaloriesCalculator.sex s); reflexivity. }
  assert (Cs : CaloriesCalculator.calcSteps s = PrimFloat.infinity).
  { unfold CaloriesCalculator.calcSteps.
    destruct (CaloriesCalculator.inputMode s); [contradiction| |];
      rewrite St; cbn [num_div float_number];
      rewrite (positive_over_zero _ K); reflexivity. }
  assert (Dk : Engine.distanceKm (CaloriesCalculator.r s) = PrimFloat.nan).
  { unfold CaloriesCalculator.r, CaloriesCalculator.props, Engine.useWalkingCalc.
    cbn [Engine.walkingCalc Engine.distanceKm Engine.steps Engine.useCustomStride
         Engine.heightCm Engine.height Engine.heightUnit Engine.sex].
    rewrite Cs, U, H.
    destruct (CaloriesCalculator.heightUnit s), (CaloriesCalculator.sex s); reflexivity. }
  assert (Dm : Engine.distanceMi (CaloriesCalculator.r s) = PrimFloat.nan).
  { change (Engine.distanceMi (CaloriesCalculator.r s))
      with (Engine.distanceKm (CaloriesCalculator.r s) * lit 0.621371)%js.
    rewrite Dk. reflexivity. }
  assert (Mi : Engine.minutes (CaloriesCalculator.r s) = PrimFloat.nan).
  { change (Engine.minutes (CaloriesCalculator.r s))
      with ((if (Pace.mph (PACE (num := float) (CaloriesCalculator.pace s)) >? lit 0)%js
             then (Engine.distanceMi (CaloriesCalculator.r s)
                   / Pace.mph (PACE (num := float) (CaloriesCalculator.pace s)))%js
             else lit 0) * lit 60)%js.
    rewrite Dm. destruct (CaloriesCalculator.pace s); reflexivity. }
  repeat split; try assumption.
  - change (Engine.calories (CaloriesCalculator.r s))
      with (Pace.mets (PACE (num := float) (CaloriesCalculator.pace s)) * lit 3.5
            * Engine.weightKg (CaloriesCalculator.props s)
            * (Engine.minutes (CaloriesCalculator.r s) / lit 200))%js.
    rewrite Mi. cbn [num_mul num_div float_number].
    change (PrimFloat.div PrimFloat.nan (lit 200)) with PrimFloat.nan.
    apply mul_nan_r.
  - change (Engine.cadence (CaloriesCalculator.r s))
      with (if (Engine.minutes (CaloriesCalculator.r s) >? lit 0)%js
            then (CaloriesCalculator.calcSteps s
                  / Engine.minutes (CaloriesCalculator.r s))%js
            else lit 0).
    rewrite Mi. reflexivity.
Qed.

Lemma X10_witness :
  CaloriesCalculator.calcSteps Edge.zero_height = PrimFloat.infinity
  /\ Engine.distanceKm (CaloriesCalculator.r Edge.zero_height) = PrimFloat.nan
  /\ Engine.distanceMi (CaloriesCalculator.r Edge.zero_height) = PrimFloat.nan
  /\ Engine.minutes (CaloriesCalculator.r Edge.zero_height) = PrimFloat.nan
  /\ Engine.calories (CaloriesCalculator.r Edge.zero_height) = PrimFloat.nan
  /\ Engine.cadence (CaloriesCalculator.r Edge.zero_height) = PrimFloat.zero.
Proof.
  apply (X10_zero_height_gives_NaN Edge.zero_height);
    [discriminate | reflexivity | reflexivity | reflexivity].
Defined.

(** ** The controls *)

Lemma handler_keeps_finite (e : Event) (s : CaloriesCalculator.State float) :
  forallb PrimFloat.is_finite (Controls.numericCells s) = true ->
  forallb PrimFloat.is_finite (Controls.numericCells (Controls.handler e s)) = true.
Proof.
  unfold Controls.numericCells. cbn [forallb]. rewrite !andb_true_r.
  intro F. rewrite !andb_true_iff in F. destruct F as (A & B & C & D & E & G).
  pose proof toNumber_isFinite as T. unfold Number_isFinite in T.
  destruct e; cbn; rewrite ?T, ?A, ?B, ?C, ?D, ?E, ?G; reflexivity.
Qed.

(** X11: whatever is clicked, selected and typed, in whatever order, the
    six numeric cells of the state hold finite numbers: never NaN, never
    an infinity. *)
Theorem X11_cells_stay_finite :
  forall (es : list Event) (s : CaloriesCalculator.State float),
    Controls.run es CaloriesCalculator.initial = Some s ->
    forallb PrimFloat.is_finite (Controls.numericCells s) = true.
Proof.
  intros es.
  assert (G : forall s0 s,
             forallb PrimFloat.is_finite (Controls.numericCells s0) = true ->
             Controls.run es s0 = Some s ->
             forallb PrimFloat.is_finite (Controls.numericCells s) = true).
  { induction es as [|e rest IH]; intros s0 s F R.
    - cbn [Controls.run] in R. injection R as <-. exact F.
    - cbn [Controls.run] in R. unfold Controls.dispatch in R.
      destruct (Controls.rendered e s0); [|discriminate R].
      apply (IH (Controls.handler e s0)); [|exact R].
      now apply handler_keeps_finite. }
  intros s R. apply (G CaloriesCalculator.initial); [reflexivity | exact R].
Qed.

Lemma X11_witness :
  exists s, Controls.run Edge.session CaloriesCalculator.initial = Some s
            /\ forallb PrimFloat.is_finite (Controls.numericCells s) = true.
Proof.
  eexists. split; [vm_compute; reflexivity|].
  apply (X11_cells_stay_finite Edge.session). vm_compute. reflexivity.
Defined.

(** The finite cells do not keep the outputs finite: two events lead to
    the state of X10. *)
Example zero_height_is_reachable :
  Controls.run Edge.to_zero_height CaloriesCalculator.initial = Some Edge.zero_height.
Proof. vm_compute. reflexivity. Qed.

(** A field that is not on the page takes no input. *)
Example hidden_fields :
  Controls.run [TypeDistanceKm "3"] CaloriesCalculator.initial = None
  /\ Controls.run [TypeCustomStrideCm "80"] CaloriesCalculator.initial = None
  /\ Controls.run [ClickMode ModeDistance; TypeSteps "3"] CaloriesCalculator.initial = None.
Proof. repeat split. Qed.

(** ** What the metrics do not depend on *)

(** X12: the metrics ignore the cells that are out of use: the custom
    stride while the switch is off, and the step, distance and time cells
    of the modes that are not selected. *)
Theorem X12_unused_cells_are_ignored :
  forall (num : Type) (N : JsNumber num) (s : CaloriesCalculator.State num) (v : num),
    (CaloriesCalculator.useCustomStride s = false ->
     CaloriesCalculator.r (CaloriesCalculator.setCustomStrideCm v s)
     = CaloriesCalculator.r s)
    /\ (CaloriesCalculator.inputMode s = ModeSteps ->
        CaloriesCalculator.r (CaloriesCalculator.setDistanceKm v s)
        = CaloriesCalculator.r s
        /\ CaloriesCalculator.r (CaloriesCalculator.setTimeMin v s)
           = CaloriesCalculator.r s)
    /\ (CaloriesCalculator.inputMode s = ModeDistance ->
        CaloriesCalculator.r (CaloriesCalculator.setSteps v s)
        = CaloriesCalculator.r s
        /\ CaloriesCalculator.r (CaloriesCalculator.setTimeMin v s)
           = CaloriesCalculator.r s)
    /\ (CaloriesCalculator.inputMode s = ModeTime ->
        CaloriesCalculator.r (CaloriesCalculator.setSteps v s)
        = CaloriesCalculator.r s
        /\ CaloriesCalculator.r (CaloriesCalculator.setDistanceKm v s)
           = CaloriesCalculator.r s).
Proof.
  intros num N s v.
  unfold CaloriesCalculator.r, Engine.useWalkingCalc, Engine.walkingCalc,
    CaloriesCalculator.props, CaloriesCalculator.calcSteps,
    CaloriesCalculator.calcStride, CaloriesCalculator.km.
  split; [|split; [|split]]; intro H; cbn; rewrite H; split; reflexivity.
Qed.

Lemma X12_witness :
  CaloriesCalculator.r
    (CaloriesCalculator.setCustomStrideCm (lit 80)
       (CaloriesCalculator.initial (num := float)))
  = CaloriesCalculator.r CaloriesCalculator.initial
  /\ CaloriesCalculator.r
       (CaloriesCalculator.setDistanceKm (lit 9)
          (CaloriesCalculator.initial (num := float)))
     = CaloriesCalculator.r CaloriesCalculator.initial
  /\ CaloriesCalculator.r (CaloriesCalculator.setSteps (lit 9) Scenario.inches_4km)
     = CaloriesCalculator.r Scenario.inches_4km
  /\ CaloriesCalculator.r
       (CaloriesCalculator.setSteps (lit 9)
          (CaloriesCalculator.setInputMode ModeTime
             (CaloriesCalculator.initial (num := float))))
     = CaloriesCalculator.r
         (CaloriesCalculator.setInputMode ModeTime CaloriesCalculator.initial).
Proof.
  destruct (X12_unused_cells_are_ignored float float_number
              CaloriesCalculator.initial (lit 80)) as (A & _).
  destruct (X12_unused_cells_are_ignored float float_number
              CaloriesCalculator.initial (lit 9)) as (_ & B & _).
  destruct (X12_unused_cells_are_ignored float float_number
              Scenario.inches_4km (lit 9)) as (_ & _ & C & _).
  destruct (X12_unused_cells_are_ignored float float_number
              (CaloriesCalculator.setInputMode ModeTime CaloriesCalculator.initial)
              (lit 9)) as (_ & _ & _ & D).
  split; [apply A; reflexivity | split; [apply B; reflexivity | split]].
  - apply C; reflexivity.
  - apply D; reflexivity.
Defined.

(** ** The memos *)

Lemma Object_is_spec (a b : float) : Hooks.Object_is a b = true <-> a = b.
Proof. apply FloatAxioms.Leibniz.eqb_spec. Qed.

Lemma sameStepsDeps_spec (a b : Hooks.StepsDeps) :
  Hooks.sameStepsDeps a b = true <-> a = b.
Proof.
  destruct a as [m1 s1 d1 t1 p1 h1 x1 u1 c1], b as [m2 s2 d2 t2 p2 h2 x2 u2 c2].
  unfold Hooks.sameStepsDeps. cbn. rewrite !andb_true_iff, !Object_is_spec.
  rewrite Bool.eqb_true_iff. split.
  - intros ((((((((M & S) & D) & T) & P) & H) & X) & U) & C). subst.
    destruct m1, m2, p1, p2, x1, x2; try discriminate; reflexivity.
  - intro E. injection E as -> -> -> -> -> -> -> -> ->.
    destruct m2, p2, x2; repeat split.
Qed.

Lemma sameArgs_spec (a b : Engine.Args float) : Hooks.sameArgs a b = true <-> a = b.
Proof.
  destruct a as [w1 wu1 h1 hu1 s1 x1 p1 c1 u1], b as [w2 wu2 h2 hu2 s2 x2 p2 c2 u2].
  unfold Hooks.sameArgs. cbn. rewrite !andb_true_iff, !Object_is_spec.
  rewrite Bool.eqb_true_iff. split.
  - intros ((((((((W & WU) & H) & HU) & S) & X) & P) & C) & U). subst.
    destruct wu1, wu2, hu1, hu2, x1, x2, p1, p2; try discriminate; reflexivity.
  - intro E. injection E as -> -> -> -> -> -> -> -> ->.
    destruct wu2, hu2, x2, p2; repeat split.
Qed.

(** The dependency list of [calcSteps] names every cell its body reads:
    states that agree on the nine listed cells have the same step
    count. *)
Lemma calcSteps_reads_its_deps (s s' : CaloriesCalculator.State float) :
  Hooks.stepsDeps s = Hooks.stepsDeps s' ->
  CaloriesCalculator.calcSteps s = CaloriesCalculator.calcSteps s'.
Proof.
  unfold Hooks.stepsDeps. intro E. injection E as M S D T P H X U C.
  unfold CaloriesCalculator.calcSteps, CaloriesCalculator.km,
    CaloriesCalculator.calcStride.
  now rewrite M, S, D, T, P, H, X, U, C.
Qed.

Lemma render_coherent (s : CaloriesCalculator.State float) (c : Hooks.Cells) :
  Hooks.coherent c ->
  fst (Hooks.render s c) = CaloriesCalculator.r s /\ Hooks.coherent (snd (Hooks.render s c)).
Proof.
  intros [C1 C2]. unfold Hooks.render.
  assert (S : exists cell1,
             Hooks.useMemo Hooks.sameStepsDeps (Hooks.stepsCell c)
               (fun _ => CaloriesCalculator.calcSteps s) (Hooks.stepsDeps s)
             = (CaloriesCalculator.calcSteps s, cell1)
             /\ forall m, cell1 = Some m ->
                  exists s0, Hooks.memo_deps m = Hooks.stepsDeps s0
                             /\ Hooks.memo_value m = CaloriesCalculator.calcSteps s0).
  { unfold Hooks.useMemo. destruct (Hooks.stepsCell c) as [m|] eqn:Cell.
    - destruct (Hooks.sameStepsDeps (Hooks.memo_deps m) (Hooks.stepsDeps s)) eqn:Same.
      + apply sameStepsDeps_spec in Same.
        destruct (C1 m eq_refl) as (s0 & D & V).
        eexists. split.
        * rewrite V. f_equal. apply calcSteps_reads_its_deps. congruence.
        * intros m' E. injection E as <-. eauto.
      + eexists. split; [reflexivity|]. intros m' E. injection E as <-. cbn. eauto.
    - eexists. split; [reflexivity|]. intros m' E. injection E as <-. cbn. eauto. }
  destruct S as (cell1 & -> & K1).
  fold (CaloriesCalculator.props s).
  unfold Hooks.useMemo. destruct (Hooks.calcCell c) as [m|] eqn:Cell.
  - destruct (Hooks.sameArgs (Hooks.memo_deps m) (CaloriesCalculator.props s)) eqn:Same.
    + apply sameArgs_spec in Same. cbn [fst snd]. split.
      * rewrite (C2 m eq_refl), Same. reflexivity.
      * split; [exact K1 | cbn; intros m' E; injection E as <-; now apply C2].
    + cbn [fst snd]. split; [reflexivity|].
      split; [exact K1 | cbn; intros m' E; injection E as <-; reflexivity].
  - cbn [fst snd]. split; [reflexivity|].
    split; [exact K1 | cbn; intros m' E; injection E as <-; reflexivity].
Qed.

Lemma renders_coherent (ss : list (CaloriesCalculator.State float)) (c : Hooks.Cells) :
  Hooks.coherent c -> Hooks.coherent (Hooks.renders ss c).
Proof.
  revert c. induction ss as [|s rest IH]; intros c C; [exact C|].
  cbn [Hooks.renders]. apply IH. now apply render_coherent.
Qed.

(** X13: the memos are never stale.  After any sequence of renders, the
    render of a state returns the metrics of that state, as an unmemoised
    computation would; and rendering the same state again keeps both
    memo cells as they are. *)
Theorem X13_memos_never_stale :
  forall (ss : list (CaloriesCalculator.State float)) (s : CaloriesCalculator.State float),
    fst (Hooks.render s (Hooks.renders ss Hooks.mounted)) = CaloriesCalculator.r s
    /\ snd (Hooks.render s (snd (Hooks.render s (Hooks.renders ss Hooks.mounted))))
       = snd (Hooks.render s (Hooks.renders ss Hooks.mounted)).
Proof.
  intros ss s.
  assert (C : Hooks.coherent (Hooks.renders ss Hooks.mounted)).
  { apply renders_coherent. split; intros m E; discriminate E. }
  split; [now apply render_coherent|].
  assert (R1 : forall d, Hooks.sameStepsDeps d d = true)
    by (intro d; now apply sameStepsDeps_spec).
  assert (R2 : forall a, Hooks.sameArgs a a = true)
    by (intro a; now apply sameArgs_spec).
  generalize (Hooks.renders ss Hooks.mounted). intro c.
  unfold Hooks.render at 2 3.
  destruct (Hooks.useMemo Hooks.sameStepsDeps (Hooks.stepsCell c) _ _) as [v1 cell1] eqn:E1.
  destruct (Hooks.useMemo Hooks.sameArgs (Hooks.calcCell c) _ _) as [r1 cell2] eqn:E2.
  cbn [snd]. unfold Hooks.render. cbn [Hooks.stepsCell Hooks.calcCell].
  assert (K1 : Hooks.useMemo Hooks.sameStepsDeps cell1
                 (fun _ => CaloriesCalculator.calcSteps s) (Hooks.stepsDeps s)
               = (v1, cell1)).
  { revert E1. unfold Hooks.useMemo. destruct (Hooks.stepsCell c) as [m|].
    - destruct (Hooks.sameStepsDeps (Hooks.memo_deps m) (Hooks.stepsDeps s)) eqn:Same.
      + intro E. injection E as <- <-. now rewrite Same.
      + intro E. injection E as <- <-. cbn. now rewrite R1.
    - intro E. injection E as <- <-. cbn. now rewrite R1. }
  rewrite K1.
  match type of E2 with
  | Hooks.useMemo _ _ ?f ?a = _ =>
      assert (K2 : Hooks.useMemo Hooks.sameArgs cell2 f a = (r1, cell2))
  end.
  { revert E2. unfold Hooks.useMemo. destruct (Hooks.calcCell c) as [m|].
    - match goal with
      | |- context [Hooks.sameArgs ?x ?y] => destruct (Hooks.sameArgs x y) eqn:Same
      end.
      + intro E. injection E as <- <-. now rewrite Same.
      + intro E. injection E as <- <-. cbn. now rewrite R2.
    - intro E. injection E as <- <-. cbn. now rewrite R2. }
  rewrite K2. reflexivity.
Qed.

(** ** Round trips through the step count, over exact arithmetic *)

Section RoundTrips.
Local Open Scope Q_scope.


Variable s : CaloriesCalculator.State Q.




End RoundTrips.








